(** * bt_cycle: the 80-minute cycle win-rate report

    A shallow embedding of [bt_cycle.py]: the tabular loader ([load_data]),
    the column resolver and trade normaliser ([process_trades]), the cycle
    aggregator ([calculate_cycle_stats], [calculate_overall_stats]) and the
    report renderer ([generate_report]).

    Conventions of the embedding.
    - Python [int]s are [Z]; Python and numpy floats are exact rationals [Q],
      with [NaN] added where the code can produce it.  Rounding
      ([round(x, n)], [{x:.nf}]) is round-half-to-even on the exact value.
    - [str.lower] and the [in] substring test act on ASCII.
    - A pandas DataFrame is its column names and its rows; a Python [dict] is
      the list of its items in insertion order.
    - A column operation of pandas ([.str.contains], [> 0], [.apply]) is
      taken value by value.  The trade-type column is one that holds strings,
      as the [.str] accessor requires; [pd.to_datetime] and the printing of
      a number by [str] are parameters of the development.
    - An exception is a value of [error]; a function that can raise returns
      [result]. *)

From Stdlib Require Import ZArith QArith Qround Qabs List String Ascii Bool Lia.
From Stdlib Require Import Sorting.Sorted Sorting.Permutation.
From Stdlib Require Import DecimalString Lqa Qfield.
Import ListNotations.

Local Open Scope string_scope.
Local Open Scope Z_scope.

(** ** Python strings *)

Module PyStr.

Definition lower_ascii (c : ascii) : ascii :=
  let n := nat_of_ascii c in
  if ((65 <=? n) && (n <=? 90))%nat then ascii_of_nat (n + 32) else c.

(** [s.lower()] *)
Fixpoint lower (s : string) : string :=
  match s with
  | EmptyString => EmptyString
  | String c s' => String (lower_ascii c) (lower s')
  end.

(** [sub in s] *)
Fixpoint contains (sub s : string) : bool :=
  if prefix sub s then true
  else match s with
       | EmptyString => false
       | String _ s' => contains sub s'
       end.

(** [sep.join(parts)] with the empty separator *)
Definition concat_all (parts : list string) : string :=
  String.concat "" parts.

End PyStr.

(** ** Exceptions *)

Inductive error : Type :=
| UnsupportedFormat (ext : string)  (* ValueError("Unsupported file format: ...") *)
| MissingDateTimeColumn             (* ValueError("Could not find Date/Time column in data") *)
| MissingPnlColumn                  (* ValueError("Could not find P&L column in data") *)
| EmptyDataset                      (* ValueError("No trade entries found in data") *)
| DataFormat                        (* raised by pd.to_datetime *)
| PyTypeError                       (* a comparison or format on a value of the wrong type *)
| PyKeyError (key : string)         (* a column that the DataFrame does not have *)
| ReadError.                        (* raised by pd.read_excel / pd.read_csv *)

Inductive result (A : Type) : Type :=
| Ok (a : A)
| Raise (e : error).
Arguments Ok {A} a.
Arguments Raise {A} e.

Definition bind {A B : Type} (m : result A) (k : A -> result B) : result B :=
  match m with
  | Ok a => k a
  | Raise e => Raise e
  end.

Notation "x <- m ;; k" := (bind m (fun x => k))
  (at level 61, m at next level, right associativity).

Fixpoint mapM {A B : Type} (f : A -> result B) (l : list A) : result (list B) :=
  match l with
  | [] => Ok []
  | a :: l' => b <- f a ;; bs <- mapM f l' ;; Ok (b :: bs)
  end.

(** ** Column resolver (the three loops at the head of [process_trades]) *)

Definition is_datetime_name (col : string) : bool :=
  PyStr.contains "date" (PyStr.lower col) || PyStr.contains "time" (PyStr.lower col).

Definition is_type_name (col : string) : bool :=
  String.eqb (PyStr.lower col) "type".

Definition is_pnl_name_strict (col : string) : bool :=
  (PyStr.contains "p&l" (PyStr.lower col) || PyStr.contains "pnl" (PyStr.lower col)
   || PyStr.contains "profit" (PyStr.lower col))
  && (PyStr.contains "usd" (PyStr.lower col) || PyStr.contains "net" (PyStr.lower col)).

Definition is_pnl_name_loose (col : string) : bool :=
  PyStr.contains "p&l" (PyStr.lower col) || PyStr.contains "pnl" (PyStr.lower col).

Definition find_datetime_col (columns : list string) : option string :=
  find is_datetime_name columns.

Definition find_type_col (columns : list string) : option string :=
  find is_type_name columns.

Definition find_pnl_col (columns : list string) : option string :=
  match find is_pnl_name_strict columns with
  | Some col => Some col
  | None => find is_pnl_name_loose columns
  end.

Definition resolve_datetime_col (columns : list string) : result string :=
  match find_datetime_col columns with
  | Some col => Ok col
  | None => Raise MissingDateTimeColumn
  end.

Definition resolve_pnl_col (columns : list string) : result string :=
  match find_pnl_col columns with
  | Some col => Ok col
  | None => Raise MissingPnlColumn
  end.

(** ** Data model *)

Record Date : Type := mkDate { year : Z; month : Z; day : Z }.

Record Timestamp : Type := mkTimestamp {
  ts_date : Date;
  ts_hour : Z;
  ts_minute : Z;
  ts_second : Z
}.

(** A float that may be NaN. *)
Inductive num : Type :=
| Num (q : Q)
| NaN.

(** One value of a table: a string, a number, a timestamp, or missing
    (None / NaN / NaT). *)
Inductive cell : Type :=
| CStr (s : string)
| CNum (q : Q)
| CTime (t : Timestamp)
| CNull.

(** A DataFrame: the column names in table order and the rows, each row
    holding one cell per column. *)
Record DataFrame : Type := mkDataFrame {
  columns : list string;
  rows : list (list cell)
}.

Fixpoint col_index (col : string) (cols : list string) : option nat :=
  match cols with
  | [] => None
  | c :: cols' =>
      if String.eqb c col then Some O
      else option_map S (col_index col cols')
  end.

(** [row[col]] *)
Definition row_get (cols : list string) (col : string) (row : list cell) : cell :=
  match col_index col cols with
  | Some i => nth i row CNull
  | None => CNull
  end.

(** [df[col]] *)
Definition column (df : DataFrame) (col : string) : list cell :=
  map (row_get (columns df) col) (rows df).

Inductive side : Type := Long | Short | Unknown.

Definition side_eqb (a b : side) : bool :=
  match a, b with
  | Long, Long | Short, Short | Unknown, Unknown => true
  | _, _ => false
  end.

(** A row of the [entries] frame returned by [process_trades], with the
    columns the function adds. *)
Record Entry : Type := mkEntry {
  source_row : list cell;
  hour : Z;
  minute : Z;
  date : Date;
  total_mins : Z;
  cycle_num : Z;
  is_win : bool;
  pnl : num;
  trade_type : side
}.

(** ** Configuration *)

Definition SESSION_START_HOUR : Z := 7.
Definition SESSION_END_HOUR : Z := 16.
Definition CYCLE_DURATION : Z := 80.
Definition POINT_VALUE : Z := 100.

Definition CYCLE_TIMES (cycle : Z) : string :=
  match cycle with
  | 0 => "07:00 - 08:20"
  | 1 => "08:20 - 09:40"
  | 2 => "09:40 - 11:00"
  | 3 => "11:00 - 12:20"
  | 4 => "12:20 - 13:40"
  | 5 => "13:40 - 15:00"
  | 6 => "15:00 - 16:20"
  | _ => ""
  end.

(** ** Tabular loader *)

(** What pandas reads from the file: every sheet of a workbook, in workbook
    order, or the single table of a delimited file. *)
Inductive file_data : Type :=
| Workbook (all_sheets : list (string * DataFrame))
| Delimited (df : DataFrame).

(** A Python dict built by [dict(zip(keys, values))], as its items in
    insertion order; a later item with the same key overwrites. *)
Definition props_dict : Type := list (cell * cell).

Definition cell_is_str (k : string) (c : cell) : bool :=
  match c with
  | CStr s => String.eqb s k
  | _ => false
  end.

(** [props.get(key, default)] for a string key *)
Definition dict_get (props : props_dict) (key : string) (default : cell) : cell :=
  match find (fun kv => cell_is_str key (fst kv)) (rev props) with
  | Some kv => snd kv
  | None => default
  end.

(** The first loop of [load_data]: a name with both "trade" and "list" wins
    and stops the loop; otherwise the last name with "trade" is kept. *)
Fixpoint select_trades_sheet (names : list string) (trades_sheet : option string)
  : option string :=
  match names with
  | [] => trades_sheet
  | name :: names' =>
      if PyStr.contains "trade" (PyStr.lower name) && PyStr.contains "list" (PyStr.lower name)
      then Some name
      else if PyStr.contains "trade" (PyStr.lower name)
           then select_trades_sheet names' (Some name)
           else select_trades_sheet names' trades_sheet
  end.

Definition read_sheet (all_sheets : list (string * DataFrame)) (name : string)
  : result DataFrame :=
  match find (fun s => String.eqb (fst s) name) all_sheets with
  | Some s => Ok (snd s)
  | None => Raise ReadError
  end.

(** [max(sheets, key=lambda x: len(x.columns))]: the first sheet of maximal
    width. *)
Fixpoint widest_sheet (best : DataFrame) (sheets : list DataFrame) : DataFrame :=
  match sheets with
  | [] => best
  | s :: sheets' =>
      if (List.length (columns best) <? List.length (columns s))%nat
      then widest_sheet s sheets'
      else widest_sheet best sheets'
  end.

Definition has_column (df : DataFrame) (col : string) : bool :=
  existsb (String.eqb col) (columns df).

(** The second loop of [load_data]: the first sheet whose name contains
    "propert" decides, and the loop stops there. *)
Fixpoint load_props (all_sheets : list (string * DataFrame)) : props_dict :=
  match all_sheets with
  | [] => []
  | (name, props_df) :: rest =>
      if PyStr.contains "propert" (PyStr.lower name)
      then if has_column props_df "name" && has_column props_df "value"
           then combine (column props_df "name") (column props_df "value")
           else []
      else load_props rest
  end.

(** [load_data(filepath)], given [ext = os.path.splitext(filepath)[1]] and
    the content pandas reads at that path. *)
Definition load_data (ext : string) (file : file_data)
  : result (DataFrame * props_dict) :=
  let ext := PyStr.lower ext in
  if String.eqb ext ".xlsx" || String.eqb ext ".xls" then
    match file with
    | Workbook all_sheets =>
        df <- match select_trades_sheet (map fst all_sheets) None with
              | Some trades_sheet => read_sheet all_sheets trades_sheet
              | None =>
                  match map snd all_sheets with
                  | [] => Raise ReadError
                  | s :: sheets => Ok (widest_sheet s sheets)
                  end
              end ;;
        Ok (df, load_props all_sheets)
    | Delimited _ => Raise ReadError
    end
  else if String.eqb ext ".csv" then
    match file with
    | Delimited df => Ok (df, [])
    | Workbook _ => Raise ReadError
    end
  else Raise (UnsupportedFormat ext).

(** ** Numbers *)

Definition Qlt_bool (a b : Q) : bool := negb (Qle_bool b a).

(** Round to the nearest integer, ties to the even one. *)
Definition round_half_even (q : Q) : Z :=
  let f := Qfloor q in
  match Qcompare (q - inject_Z f) (1 # 2) with
  | Lt => f
  | Gt => f + 1
  | Eq => if Z.even f then f else f + 1
  end.

Definition pow10 (n : nat) : Q := inject_Z (10 ^ Z.of_nat n).

(** [round(x, ndigits)] *)
Definition round_nd (x : Q) (ndigits : nat) : Q :=
  (inject_Z (round_half_even (x * pow10 ndigits)) / pow10 ndigits)%Q.

Definition round_num (x : num) (ndigits : nat) : num :=
  match x with
  | Num q => Num (round_nd q ndigits)
  | NaN => NaN
  end.

(** [len(x)] *)
Definition len {A : Type} (l : list A) : Z := Z.of_nat (List.length l).

(** [range(n)] *)
Definition range (n : nat) : list Z := map Z.of_nat (seq 0 n).

Fixpoint filter_map {A B : Type} (f : A -> option B) (l : list A) : list B :=
  match l with
  | [] => []
  | a :: l' =>
      match f a with
      | Some b => b :: filter_map f l'
      | None => filter_map f l'
      end
  end.

(** ** Trade normaliser *)

(** [total_mins // CYCLE_DURATION] for a row with a timestamp; [Z.div] is
    floor division, as [//] is. *)
Definition row_total_mins (t : Timestamp) : Z :=
  (ts_hour t - SESSION_START_HOUR) * 60 + ts_minute t.

Definition row_cycle_num (t : Timestamp) : Z :=
  row_total_mins t / CYCLE_DURATION.

(** [(cycle_num >= 0) & (cycle_num <= 6)]; a row without a timestamp (NaT)
    has NaN in both columns and fails both comparisons. *)
Definition in_cycle_range (r : list cell * option Timestamp) : bool :=
  match snd r with
  | Some t => (0 <=? row_cycle_num t) && (row_cycle_num t <=? 6)
  | None => false
  end.

Definition keep_in_range (r : list cell * option Timestamp)
  : option (list cell * Timestamp) :=
  match snd r with
  | Some t => if in_cycle_range r then Some (fst r, t) else None
  | None => None
  end.

(** [str.contains('Entry', case=False, na=False)] on one value: a value
    that is not a string gives NaN, which [na=False] turns into False. *)
Definition contains_entry (c : cell) : bool :=
  match c with
  | CStr s => PyStr.contains "entry" (PyStr.lower s)
  | _ => false
  end.

(** ['Long' if 'long' in str(x).lower() else 'Short'] *)
Definition side_of (c : cell) : side :=
  match c with
  | CStr s => if PyStr.contains "long" (PyStr.lower s) then Long else Short
  | _ => Short
  end.

(** The value of the P&L column as a number; comparing a string or a
    timestamp with 0 raises TypeError. *)
Definition pnl_value (c : cell) : result num :=
  match c with
  | CNum q => Ok (Num q)
  | CNull => Ok NaN
  | _ => Raise PyTypeError
  end.

(** [x > 0]; NaN compares False. *)
Definition num_gt0 (x : num) : bool :=
  match x with
  | Num q => Qlt_bool 0 q
  | NaN => false
  end.

Definition normalise (cols : list string) (type_col : option string) (pnl_col : string)
    (r : list cell * Timestamp) : result Entry :=
  let (row, t) := r in
  p <- pnl_value (row_get cols pnl_col row) ;;
  Ok {| source_row := row;
        hour := ts_hour t;
        minute := ts_minute t;
        date := ts_date t;
        total_mins := row_total_mins t;
        cycle_num := row_cycle_num t;
        is_win := num_gt0 p;
        pnl := p;
        trade_type := match type_col with
                      | Some tc => side_of (row_get cols tc row)
                      | None => Unknown
                      end |}.

Section Pandas.

(** [pd.to_datetime] on one value: [None] when pandas raises, [Some None]
    for NaT, [Some (Some t)] for a timestamp. *)
Variable to_datetime : cell -> option (option Timestamp).

Definition stamp_row (cols : list string) (datetime_col : string) (row : list cell)
  : result (list cell * option Timestamp) :=
  match to_datetime (row_get cols datetime_col row) with
  | Some t => Ok (row, t)
  | None => Raise DataFormat
  end.

(** The rows that pass the entry filter, given the rows with their
    converted timestamps. *)
Definition entry_rows (cols : list string) (type_col : option string)
    (stamped : list (list cell * option Timestamp))
  : list (list cell * option Timestamp) :=
  match type_col with
  | Some tc => filter (fun r => contains_entry (row_get cols tc (fst r))) stamped
  | None => stamped
  end.

(** [process_trades(df)].  Line 124 makes the timestamp column a
    datetime column, so if the P&L column is that same column the
    comparison [entries[pnl_col] > 0] raises TypeError whatever the rows. *)
Definition process_trades (df : DataFrame) : result (list Entry) :=
  datetime_col <- resolve_datetime_col (columns df) ;;
  let type_col := find_type_col (columns df) in
  pnl_col <- resolve_pnl_col (columns df) ;;
  stamped <- mapM (stamp_row (columns df) datetime_col) (rows df) ;;
  let entries := entry_rows (columns df) type_col stamped in
  if len entries =? 0 then Raise EmptyDataset
  else
    let entries := filter_map keep_in_range entries in
    if String.eqb pnl_col datetime_col then Raise PyTypeError
    else mapM (normalise (columns df) type_col pnl_col) entries.

End Pandas.

(** ** Cycle aggregator *)

Module Cycle.
(** One row of the frame returned by [calculate_cycle_stats]. *)
Record t : Type := mk {
  cycle : Z;
  time_range : string;
  total_trades : Z;
  wins : Z;
  losses : Z;
  win_rate : Q;
  total_pnl : Q;
  avg_pnl : num;
  long_trades : Z;
  long_wr : Q;
  long_pnl : Q;
  short_trades : Z;
  short_wr : Q;
  short_pnl : Q
}.
End Cycle.

Module Overall.
(** The dict returned by [calculate_overall_stats]. *)
Record t : Type := mk {
  total_trades : Z;
  total_wins : Z;
  total_losses : Z;
  overall_wr : num;
  total_pnl : Q;
  long_trades : Z;
  long_wins : Z;
  long_losses : Z;
  long_wr : Q;
  long_pnl : Q;
  short_trades : Z;
  short_wins : Z;
  short_losses : Z;
  short_wr : Q;
  short_pnl : Q;
  start_date : option Date;
  end_date : option Date
}.
End Overall.

(** [int(data['is_win'].sum())] *)
Definition sum_is_win (data : list Entry) : Z := len (filter is_win data).

(** [data['pnl'].sum()]; pandas skips NaN. *)
Definition sum_pnl (data : list Entry) : Q :=
  fold_left (fun acc e => match pnl e with
                          | Num q => (acc + q)%Q
                          | NaN => acc
                          end) data 0%Q.

(** [data['pnl'].mean()]; pandas skips NaN, and the mean of no value is NaN. *)
Definition mean_pnl (data : list Entry) : num :=
  let present := filter (fun e => match pnl e with Num _ => true | NaN => false end) data in
  if len present =? 0 then NaN
  else Num (sum_pnl data / inject_Z (len present))%Q.

(** [round((data['is_win'].sum() / len(data)) * 100, ndigits)], for a
    non-empty [data]. *)
Definition win_pct (data : list Entry) (ndigits : nat) : Q :=
  round_nd ((inject_Z (sum_is_win data) / inject_Z (len data)) * 100)%Q ndigits.

Definition with_side (s : side) (data : list Entry) : list Entry :=
  filter (fun e => side_eqb (trade_type e) s) data.

(** The body of the loop of [calculate_cycle_stats] for one cycle; [None]
    is the [continue]. *)
Definition cycle_row (entries : list Entry) (cycle : Z) : option Cycle.t :=
  let cycle_data := filter (fun e => cycle_num e =? cycle) entries in
  if len cycle_data =? 0 then None
  else
    let long_data := with_side Long cycle_data in
    let short_data := with_side Short cycle_data in
    Some {| Cycle.cycle := cycle;
            Cycle.time_range := CYCLE_TIMES cycle;
            Cycle.total_trades := len cycle_data;
            Cycle.wins := sum_is_win cycle_data;
            Cycle.losses := len cycle_data - sum_is_win cycle_data;
            Cycle.win_rate := win_pct cycle_data 1;
            Cycle.total_pnl := sum_pnl cycle_data;
            Cycle.avg_pnl := round_num (mean_pnl cycle_data) 0;
            Cycle.long_trades := len long_data;
            Cycle.long_wr := if 0 <? len long_data then win_pct long_data 1 else 0%Q;
            Cycle.long_pnl := if 0 <? len long_data then sum_pnl long_data else 0%Q;
            Cycle.short_trades := len short_data;
            Cycle.short_wr := if 0 <? len short_data then win_pct short_data 1 else 0%Q;
            Cycle.short_pnl := if 0 <? len short_data then sum_pnl short_data else 0%Q |}.

Definition calculate_cycle_stats (entries : list Entry) : list Cycle.t :=
  filter_map (cycle_row entries) (range 7).

Definition date_leb (a b : Date) : bool :=
  (year a <? year b)
  || ((year a =? year b)
      && ((month a <? month b) || ((month a =? month b) && (day a <=? day b)))).

Definition date_min (dates : list Date) : option Date :=
  match dates with
  | [] => None
  | d :: ds => Some (fold_left (fun m x => if date_leb m x then m else x) ds d)
  end.

Definition date_max (dates : list Date) : option Date :=
  match dates with
  | [] => None
  | d :: ds => Some (fold_left (fun m x => if date_leb x m then m else x) ds d)
  end.

(** [calculate_overall_stats(entries)].  With no entry, the division 0/0
    of numpy gives NaN and the min and max of the empty date column are
    NaN as well. *)
Definition calculate_overall_stats (entries : list Entry) : Overall.t :=
  let long_trades := with_side Long entries in
  let short_trades := with_side Short entries in
  {| Overall.total_trades := len entries;
     Overall.total_wins := sum_is_win entries;
     Overall.total_losses := len entries - sum_is_win entries;
     Overall.overall_wr := if len entries =? 0 then NaN else Num (win_pct entries 2);
     Overall.total_pnl := sum_pnl entries;
     Overall.long_trades := len long_trades;
     Overall.long_wins := sum_is_win long_trades;
     Overall.long_losses := len long_trades - sum_is_win long_trades;
     Overall.long_wr := if 0 <? len long_trades then win_pct long_trades 2 else 0%Q;
     Overall.long_pnl := if 0 <? len long_trades then sum_pnl long_trades else 0%Q;
     Overall.short_trades := len short_trades;
     Overall.short_wins := sum_is_win short_trades;
     Overall.short_losses := len short_trades - sum_is_win short_trades;
     Overall.short_wr := if 0 <? len short_trades then win_pct short_trades 2 else 0%Q;
     Overall.short_pnl := if 0 <? len short_trades then sum_pnl short_trades else 0%Q;
     Overall.start_date := date_min (map date entries);
     Overall.end_date := date_max (map date entries) |}.

(** ** Formatting *)

(** [str(n)] for an integer *)
Definition str_int (n : Z) : string := NilZero.string_of_int (Z.to_int n).

Fixpoint zeros (n : nat) : string :=
  match n with
  | O => ""
  | S n' => String "0" (zeros n')
  end.

(** [s.zfill(width)] for a string of digits *)
Definition zfill (width : nat) (s : string) : string :=
  zeros (width - String.length s) ++ s.

(** Thousands separators, written on the reversed digits: [k] digits of the
    current group are already out. *)
Fixpoint commas_rev (digits : list ascii) (k : nat) : list ascii :=
  match digits with
  | [] => []
  | c :: digits' =>
      match k with
      | 3%nat => ","%char :: c :: commas_rev digits' 1
      | _ => c :: commas_rev digits' (S k)
      end
  end.

Definition group_thousands (s : string) : string :=
  string_of_list_ascii (rev (commas_rev (rev (list_ascii_of_string s)) 0)).

(** [f"{x:.{d}f}"], and [f"{x:,.{d}f}"] when [comma] is set. *)
Definition format_f (comma : bool) (d : nat) (x : Q) : string :=
  let scaled := round_half_even (Qabs x * pow10 d) in
  let int_part := str_int (scaled / 10 ^ Z.of_nat d) in
  let frac_part := zfill d (str_int (scaled mod 10 ^ Z.of_nat d)) in
  (if Qlt_bool x 0 then "-" else "")
  ++ (if comma then group_thousands int_part else int_part)
  ++ (match d with O => "" | _ => "." ++ frac_part end).

Definition format_f_num (comma : bool) (d : nat) (x : num) : string :=
  match x with
  | Num q => format_f comma d q
  | NaN => "nan"
  end.

(** [value >= 0]; NaN compares False. *)
Definition num_ge0 (x : num) : bool :=
  match x with
  | Num q => Qle_bool 0 q
  | NaN => false
  end.

Definition num_abs (x : num) : num :=
  match x with
  | Num q => Num (Qabs q)
  | NaN => NaN
  end.

Definition format_pnl (value : num) : string :=
  if num_ge0 value then "$" ++ format_f_num true 0 value
  else "-$" ++ format_f_num true 0 (num_abs value).

Definition format_pnl_signed (value : num) : string :=
  if num_ge0 value then "+$" ++ format_f_num true 0 value
  else "-$" ++ format_f_num true 0 (num_abs value).

(** [str(d)] for a [datetime.date] *)
Definition str_date (d : Date) : string :=
  zfill 4 (str_int (year d)) ++ "-" ++ zfill 2 (str_int (month d))
  ++ "-" ++ zfill 2 (str_int (day d)).

(** The min or max of the date column: a date, or NaN for no row. *)
Definition str_date_or_nan (d : option Date) : string :=
  match d with
  | Some d => str_date d
  | None => "nan"
  end.

Definition month_name (m : Z) : string :=
  match m with
  | 1 => "January" | 2 => "February" | 3 => "March" | 4 => "April"
  | 5 => "May" | 6 => "June" | 7 => "July" | 8 => "August"
  | 9 => "September" | 10 => "October" | 11 => "November" | 12 => "December"
  | _ => ""
  end.

(** [now.strftime('%B %d, %Y at %H:%M')] *)
Definition strftime_report (now : Timestamp) : string :=
  month_name (month (ts_date now)) ++ " " ++ zfill 2 (str_int (day (ts_date now)))
  ++ ", " ++ str_int (year (ts_date now)) ++ " at "
  ++ zfill 2 (str_int (ts_hour now)) ++ ":" ++ zfill 2 (str_int (ts_minute now)).

(** [str(t)] for a timestamp *)
Definition str_timestamp (t : Timestamp) : string :=
  str_date (ts_date t) ++ " " ++ zfill 2 (str_int (ts_hour t)) ++ ":"
  ++ zfill 2 (str_int (ts_minute t)) ++ ":" ++ zfill 2 (str_int (ts_second t)).

(** ** Sorting a frame by one column

    [DataFrame.sort_values(col, ascending=...)] argsorts the column with
    numpy; on the at most seven rows of a cycle frame numpy sorts by
    insertion, which is stable.  For [ascending=False] pandas reverses the
    column, argsorts it ascending and reverses the result. *)

Section SortValues.

Context {A : Type} (key : A -> Q).

Fixpoint insert_sorted (x : A) (l : list A) : list A :=
  match l with
  | [] => [x]
  | y :: l' =>
      if Qle_bool (key x) (key y) then x :: y :: l'
      else y :: insert_sorted x l'
  end.

Fixpoint argsort (l : list A) : list A :=
  match l with
  | [] => []
  | x :: l' => insert_sorted x (argsort l')
  end.

Definition sort_values (ascending : bool) (l : list A) : list A :=
  if ascending then argsort l else rev (argsort (rev l)).

End SortValues.

(** [enumerate(l, start)] *)
Fixpoint enumerate {A : Type} (start : Z) (l : list A) : list (Z * A) :=
  match l with
  | [] => []
  | x :: l' => (start, x) :: enumerate (start + 1) l'
  end.

(** [l.head(n)] *)
Definition head {A : Type} (n : nat) (l : list A) : list A := firstn n l.

(** ** Report renderer: the pieces *)

Definition ranked (cycle_stats : list Cycle.t) : list Cycle.t :=
  sort_values Cycle.win_rate false cycle_stats.

Definition ranked_pnl (cycle_stats : list Cycle.t) : list Cycle.t :=
  sort_values Cycle.total_pnl false cycle_stats.

Definition high_wr_cycles (cycle_stats : list Cycle.t) : list Cycle.t :=
  sort_values Cycle.win_rate false
    (filter (fun row => Qle_bool 55 (Cycle.win_rate row)) cycle_stats).

Definition low_wr_cycles (cycle_stats : list Cycle.t) : list Cycle.t :=
  sort_values Cycle.win_rate true
    (filter (fun row => Qlt_bool (Cycle.win_rate row) 50) cycle_stats).

Definition all_cycles (cycle_stats : list Cycle.t) : list Cycle.t :=
  sort_values Cycle.win_rate false cycle_stats.

(** [icons.get(rank, f"[{rank}]")] *)
Definition icon (rank : Z) : string :=
  match rank with
  | 1 => "[1st]"
  | 2 => "[2nd]"
  | 3 => "[3rd]"
  | _ => "[" ++ str_int rank ++ "]"
  end.

(** The [status] and [action] that the schedule loop gives a row. *)
Definition status_action (row : Cycle.t) : string * string :=
  if Qle_bool 55 (Cycle.win_rate row) then
    ("[GO]",
     if Qlt_bool (Cycle.short_wr row + 10) (Cycle.long_wr row) then "Favor longs"
     else if Qlt_bool (Cycle.long_wr row + 10) (Cycle.short_wr row) then "Favor shorts"
     else "Trade both directions")
  else if Qle_bool 50 (Cycle.win_rate row) then ("[CAUTION]", "Trade with caution")
  else ("[SKIP]", "Do not trade").

(** The schedule loop: each row of [all_cycles] with the value of
    [priority] at its turn. *)
Fixpoint schedule (priority : Z) (rows : list Cycle.t) : list (Z * Cycle.t) :=
  match rows with
  | [] => []
  | row :: rows' => (priority, row) :: schedule (priority + 1) rows'
  end.

Definition summary_line (row : Cycle.t) : string :=
  "| " ++ str_int (Cycle.cycle row) ++ " | " ++ Cycle.time_range row
  ++ " | " ++ str_int (Cycle.total_trades row) ++ " | " ++ str_int (Cycle.wins row)
  ++ " | " ++ str_int (Cycle.losses row)
  ++ " | **" ++ format_f false 1 (Cycle.win_rate row) ++ "%** | "
  ++ format_pnl (Num (Cycle.total_pnl row)) ++ " | " ++ format_pnl (Cycle.avg_pnl row)
  ++ " |
".

Definition ranked_line (r : Z * Cycle.t) : string :=
  let (rank, row) := r in
  "**" ++ icon rank ++ " Cycle " ++ str_int (Cycle.cycle row) ++ "** ("
  ++ Cycle.time_range row ++ ") - **" ++ format_f false 1 (Cycle.win_rate row)
  ++ "%** win rate | " ++ str_int (Cycle.total_trades row) ++ " trades | "
  ++ format_pnl_signed (Num (Cycle.total_pnl row)) ++ "

".

Definition ranked_pnl_line (r : Z * Cycle.t) : string :=
  let (rank, row) := r in
  "**" ++ icon rank ++ " Cycle " ++ str_int (Cycle.cycle row) ++ "** ("
  ++ Cycle.time_range row ++ ") - **" ++ format_pnl_signed (Num (Cycle.total_pnl row))
  ++ "** | " ++ format_f false 1 (Cycle.win_rate row) ++ "% WR

".

Definition long_short_line (row : Cycle.t) : string :=
  "| " ++ str_int (Cycle.cycle row) ++ " | " ++ Cycle.time_range row
  ++ " | " ++ str_int (Cycle.long_trades row)
  ++ " | " ++ format_f false 1 (Cycle.long_wr row) ++ "% | "
  ++ format_pnl (Num (Cycle.long_pnl row))
  ++ " | " ++ str_int (Cycle.short_trades row)
  ++ " | " ++ format_f false 1 (Cycle.short_wr row) ++ "% | "
  ++ format_pnl (Num (Cycle.short_pnl row)) ++ " |
".

Definition high_wr_line (row : Cycle.t) : string :=
  let long_note :=
    if 0 <? Cycle.long_trades row
    then "Longs: " ++ format_f false 0 (Cycle.long_wr row) ++ "%" else "No longs" in
  let short_note :=
    if 0 <? Cycle.short_trades row
    then "Shorts: " ++ format_f false 0 (Cycle.short_wr row) ++ "%" else "No shorts" in
  "| **" ++ str_int (Cycle.cycle row) ++ "** | " ++ Cycle.time_range row
  ++ " | **" ++ format_f false 1 (Cycle.win_rate row) ++ "%** | "
  ++ long_note ++ ", " ++ short_note ++ ". P&L: "
  ++ format_pnl_signed (Num (Cycle.total_pnl row)) ++ " |
".

Definition low_wr_line (row : Cycle.t) : string :=
  "| **" ++ str_int (Cycle.cycle row) ++ "** | " ++ Cycle.time_range row
  ++ " | **" ++ format_f false 1 (Cycle.win_rate row) ++ "%** | P&L: "
  ++ format_pnl (Num (Cycle.total_pnl row)) ++ ". Consider skipping this cycle. |
".

Definition schedule_line (r : Z * Cycle.t) : string :=
  let (priority, row) := r in
  let (status, action) := status_action row in
  "| " ++ status ++ " " ++ str_int priority ++ " | " ++ str_int (Cycle.cycle row)
  ++ " | " ++ Cycle.time_range row ++ " | "
  ++ format_f false 1 (Cycle.win_rate row) ++ "% | " ++ action ++ " |
".

(** ** Report renderer *)

Section Report.

(** [str(x)] for a number held in the properties sheet (Python's own
    printing of ints and floats). *)
Variable str_number : Q -> string.

(** [f"{value}"] for a value of the properties dict *)
Definition str_cell (c : cell) : string :=
  match c with
  | CStr s => s
  | CNum q => str_number q
  | CTime t => str_timestamp t
  | CNull => "nan"
  end.

(** [props.get(key, default) if props else default] *)
Definition prop (props : props_dict) (key default : string) : cell :=
  match props with
  | [] => CStr default
  | _ => dict_get props key (CStr default)
  end.

(** [initial_capital if isinstance(initial_capital, str) else
    f"${initial_capital:,.0f}"]; a timestamp formats with the spec as its
    strftime pattern, which has no directive. *)
Definition str_initial_capital (c : cell) : string :=
  match c with
  | CStr s => s
  | CNum q => "$" ++ format_f true 0 q
  | CNull => "$nan"
  | CTime _ => "$,.0f"
  end.

Definition report_header (overall_stats : Overall.t) (props : props_dict) : string :=
  let symbol := prop props "Symbol" "Unknown" in
  let timeframe := prop props "Timeframe" "Unknown" in
  let stop_loss := prop props "Stop Loss (points)" "N/A" in
  let take_profit := prop props "Take Profit (points)" "N/A" in
  let initial_capital := prop props "Initial capital" "N/A" in
  "# 80-Minute Cycle Strategy - Win Rate Analysis Report

## Strategy Overview

| Parameter | Value |
|-----------|-------|
| **Symbol** | " ++ str_cell symbol ++ " |
| **Timeframe** | " ++ str_cell timeframe ++ " |
| **Trading Period** | " ++ str_date_or_nan (Overall.start_date overall_stats)
  ++ " to " ++ str_date_or_nan (Overall.end_date overall_stats) ++ " |
| **Session Hours** | 7:00 AM - 4:00 PM EST |
| **Stop Loss** | " ++ str_cell stop_loss ++ " points |
| **Take Profit** | " ++ str_cell take_profit ++ " points |
| **Initial Capital** | " ++ str_initial_capital initial_capital ++ " |

---

## Overall Performance Summary

| Metric | All Trades | Long | Short |
|--------|------------|------|-------|
| **Total Trades** | " ++ str_int (Overall.total_trades overall_stats)
  ++ " | " ++ str_int (Overall.long_trades overall_stats)
  ++ " | " ++ str_int (Overall.short_trades overall_stats) ++ " |
| **Winning Trades** | " ++ str_int (Overall.total_wins overall_stats)
  ++ " | " ++ str_int (Overall.long_wins overall_stats)
  ++ " | " ++ str_int (Overall.short_wins overall_stats) ++ " |
| **Losing Trades** | " ++ str_int (Overall.total_losses overall_stats)
  ++ " | " ++ str_int (Overall.long_losses overall_stats)
  ++ " | " ++ str_int (Overall.short_losses overall_stats) ++ " |
| **Win Rate** | " ++ format_f_num false 2 (Overall.overall_wr overall_stats)
  ++ "% | " ++ format_f false 2 (Overall.long_wr overall_stats)
  ++ "% | " ++ format_f false 2 (Overall.short_wr overall_stats) ++ "% |
| **Net P&L** | " ++ format_pnl (Num (Overall.total_pnl overall_stats))
  ++ " | " ++ format_pnl (Num (Overall.long_pnl overall_stats))
  ++ " | " ++ format_pnl (Num (Overall.short_pnl overall_stats)) ++ " |

---

## Cycle-by-Cycle Win Rate Analysis

The trading session (7:00 AM - 4:00 PM EST) is divided into **seven 80-minute cycles**. Each cycle consists of:
- **Phase A (Accumulation)**: First 40 minutes - Range established
- **Phase B (Execution)**: Last 40 minutes - Trade signals generated

### Summary Table

| Cycle | Time (EST) | Trades | Wins | Losses | Win Rate | Total P&L | Avg P&L |
|:-----:|:----------:|:------:|:----:|:------:|:--------:|----------:|--------:|
".

Definition recommendations (overall_stats : Overall.t)
    (best_wr worst_wr best_pnl worst_pnl : Cycle.t) : string :=
  "
### Strategic Recommendations

1. **Best Cycle**: Cycle " ++ str_int (Cycle.cycle best_wr) ++ " ("
  ++ Cycle.time_range best_wr ++ ") has the highest win rate at "
  ++ format_f false 1 (Cycle.win_rate best_wr) ++ "%.

2. **Worst Cycle**: Cycle " ++ str_int (Cycle.cycle worst_wr) ++ " ("
  ++ Cycle.time_range worst_wr ++ ") has the lowest win rate at "
  ++ format_f false 1 (Cycle.win_rate worst_wr) ++ "%. Consider avoiding.

3. **Most Profitable**: Cycle " ++ str_int (Cycle.cycle best_pnl) ++ " ("
  ++ Cycle.time_range best_pnl ++ ") generated "
  ++ format_pnl_signed (Num (Cycle.total_pnl best_pnl)) ++ ".

4. **Biggest Loser**: Cycle " ++ str_int (Cycle.cycle worst_pnl) ++ " ("
  ++ Cycle.time_range worst_pnl ++ ") lost "
  ++ format_pnl (Num (Cycle.total_pnl worst_pnl)) ++ ".

5. **Direction Bias**: "
  ++ (if Qlt_bool (Overall.short_wr overall_stats) (Overall.long_wr overall_stats)
      then "Longs outperform shorts" else "Shorts outperform longs")
  ++ " (" ++ format_f false 1 (Overall.long_wr overall_stats) ++ "% vs "
  ++ format_f false 1 (Overall.short_wr overall_stats) ++ "%).

---

## Recommended Trading Schedule

| Priority | Cycle | Time (EST) | Win Rate | Action |
|:--------:|:-----:|:----------:|:--------:|--------|
".

(** The footer, with [now = datetime.now()]. *)
Definition report_footer (now : Timestamp) : string :=
  "
---

*Report generated: " ++ strftime_report now ++ "*  
*Data source: TradingView Backtest Export*
".

(** [generate_report(cycle_stats, overall_stats, props)], run when the
    clock reads [now].  The frame of no row is [pd.DataFrame([])], which
    has no column: [sort_values('win_rate')] raises KeyError on it. *)
Definition generate_report (now : Timestamp) (cycle_stats : list Cycle.t)
    (overall_stats : Overall.t) (props : props_dict) : result string :=
  let report := report_header overall_stats props in
  let report := report ++ PyStr.concat_all (map summary_line cycle_stats) in
  let report := report ++ "
---

## Cycle Rankings

### By Win Rate (Highest to Lowest)

" in
  match cycle_stats with
  | [] => Raise (PyKeyError "win_rate")
  | first :: _ =>
      let report := report
        ++ PyStr.concat_all (map ranked_line (enumerate 1 (ranked cycle_stats))) in
      let report := report ++ "### By Profitability (Best to Worst)

" in
      let report := report
        ++ PyStr.concat_all (map ranked_pnl_line (enumerate 1 (ranked_pnl cycle_stats))) in
      let report := report ++ "---

## Long vs Short Performance by Cycle

| Cycle | Time (EST) | Long Trades | Long WR | Long P&L | Short Trades | Short WR | Short P&L |
|:-----:|:----------:|:-----------:|:-------:|---------:|:------------:|:--------:|---------:|
" in
      let report := report ++ PyStr.concat_all (map long_short_line cycle_stats) in
      let best_wr := hd first (ranked cycle_stats) in
      let worst_wr := last (ranked cycle_stats) first in
      let best_pnl := hd first (ranked_pnl cycle_stats) in
      let worst_pnl := last (ranked_pnl cycle_stats) first in
      let report := report ++ "
---

## Key Insights & Recommendations

### HIGH-WIN-RATE CYCLES (Recommended)

| Cycle | Time | Win Rate | Insight |
|:-----:|:----:|:--------:|---------|
" in
      let report := report
        ++ PyStr.concat_all (map high_wr_line (head 3 (high_wr_cycles cycle_stats))) in
      let report := report ++ "
### LOW-WIN-RATE CYCLES (Avoid or Modify)

| Cycle | Time | Win Rate | Issue |
|:-----:|:----:|:--------:|-------|
" in
      let report := report
        ++ PyStr.concat_all (map low_wr_line (head 3 (low_wr_cycles cycle_stats))) in
      let report := report
        ++ recommendations overall_stats best_wr worst_wr best_pnl worst_pnl in
      let report := report
        ++ PyStr.concat_all (map schedule_line (schedule 1 (all_cycles cycle_stats))) in
      let report := report ++ report_footer now in
      Ok report
  end.

(** The calls of [process_file] between loading and writing the report,
    for the table and properties that [load_data] returned. *)
Definition run_pipeline (to_datetime : cell -> option (option Timestamp))
    (now : Timestamp) (df : DataFrame) (props : props_dict) : result string :=
  entries <- process_trades to_datetime df ;;
  let cycle_stats := calculate_cycle_stats entries in
  let overall_stats := calculate_overall_stats entries in
  generate_report now cycle_stats overall_stats props.

End Report.

(** * Properties *)

Local Open Scope list_scope.

(** ** Statement vocabulary *)

(** [col] is the first element of [cols], in order, that satisfies [p]. *)
Definition first_match (p : string -> bool) (cols : list string) (col : string) : Prop :=
  exists before after,
    cols = before ++ col :: after
    /\ p col = true
    /\ forall c, In c before -> p c = false.

(** No element of [cols] satisfies [p]. *)
Definition no_match (p : string -> bool) (cols : list string) : Prop :=
  forall c, In c cols -> p c = false.

(** [row] is a row of [df] that passes the entry filter, and [t] is its
    converted timestamp (None for NaT). *)
Definition qualifying (to_datetime : cell -> option (option Timestamp))
    (df : DataFrame) (row : list cell) (t : option Timestamp) : Prop :=
  In row (rows df)
  /\ (exists datetime_col,
        find_datetime_col (columns df) = Some datetime_col
        /\ to_datetime (row_get (columns df) datetime_col row) = Some t)
  /\ (forall type_col,
        find_type_col (columns df) = Some type_col ->
        contains_entry (row_get (columns df) type_col row) = true).

(** The entry [e] of the result is the row [row] stamped [t]. *)
Definition entry_of (row : list cell) (t : Timestamp) (e : Entry) : Prop :=
  source_row e = row /\ hour e = ts_hour t /\ minute e = ts_minute t
  /\ date e = ts_date t.

(** ** The error monad and list helpers *)

Lemma bind_ok_inv {A B : Type} (m : result A) (k : A -> result B) (b : B) :
  bind m k = Ok b -> exists a, m = Ok a /\ k a = Ok b.
Proof.
  destruct m as [a | e]; simpl; intros H.
  - exists a. split; [reflexivity | exact H].
  - discriminate.
Qed.

Lemma mapM_ok_inv {A B : Type} (f : A -> result B) :
  forall l bs, mapM f l = Ok bs -> Forall2 (fun a b => f a = Ok b) l bs.
Proof.
  induction l as [| a l IH]; simpl; intros bs H.
  - injection H as <-. constructor.
  - apply bind_ok_inv in H. destruct H as [b [Hb H]].
    apply bind_ok_inv in H. destruct H as [bs' [Hbs H]].
    injection H as <-. constructor; auto.
Qed.

Lemma mapM_ok_intro {A B : Type} (f : A -> result B) :
  forall l bs, Forall2 (fun a b => f a = Ok b) l bs -> mapM f l = Ok bs.
Proof.
  induction 1 as [| a b l bs Hab _ IH]; simpl.
  - reflexivity.
  - rewrite Hab. simpl. rewrite IH. reflexivity.
Qed.


Lemma in_filter_map {A B : Type} (f : A -> option B) (l : list A) (b : B) :
  In b (filter_map f l) <-> exists a, In a l /\ f a = Some b.
Proof.
  induction l as [| a l IH]; simpl.
  - split; [intros [] | intros [a [[] _]]].
  - destruct (f a) as [b' |] eqn:Hfa; simpl; rewrite IH; split.
    + intros [<- | [a' [Hin Hf]]]; eauto.
    + intros [a' [[<- | Hin] Hf]]; [left; congruence | right; eauto].
    + intros [a' [Hin Hf]]; eauto.
    + intros [a' [[<- | Hin] Hf]]; [congruence | eauto].
Qed.

Lemma filter_map_app {A B : Type} (f : A -> option B) (l1 l2 : list A) :
  filter_map f (l1 ++ l2) = filter_map f l1 ++ filter_map f l2.
Proof.
  induction l1 as [| a l1 IH]; simpl; [reflexivity |].
  destruct (f a); simpl; rewrite IH; reflexivity.
Qed.

Lemma len_nil_iff {A : Type} (l : list A) : (len l =? 0) = true <-> l = [].
Proof.
  unfold len. destruct l; simpl; split; intros H;
    try reflexivity; try discriminate.
Qed.

Lemma Forall2_in_l {A B : Type} (R : A -> B -> Prop) :
  forall l l', Forall2 R l l' -> forall a, In a l -> exists b, In b l' /\ R a b.
Proof.
  induction 1 as [| a b l l' Hab _ IH]; simpl; intros x [].
  - subst. eauto.
  - destruct (IH x) as [y [Hy HR]]; eauto.
Qed.

Lemma Forall2_in_r {A B : Type} (R : A -> B -> Prop) :
  forall l l', Forall2 R l l' -> forall b, In b l' -> exists a, In a l /\ R a b.
Proof.
  induction 1 as [| a b l l' Hab _ IH]; simpl; intros y [].
  - subst. eauto.
  - destruct (IH y) as [x [Hx HR]]; eauto.
Qed.

(** ** Column resolver *)

Lemma find_some_first_match (p : string -> bool) (cols : list string) (col : string) :
  find p cols = Some col <-> first_match p cols col.
Proof.
  unfold first_match. induction cols as [| c cols IH]; simpl.
  - split; [discriminate |].
    intros [before [after [H _]]]. destruct before; discriminate.
  - destruct (p c) eqn:Hc; split.
    + intros H. injection H as <-. exists [], cols. simpl. intuition.
    + intros [before [after [Heq [Hp Hnone]]]].
      destruct before as [| b before]; simpl in Heq; injection Heq as <- Heq.
      * reflexivity.
      * rewrite (Hnone c) in Hc by (left; reflexivity). discriminate.
    + intros H. apply IH in H. destruct H as [before [after [Heq [Hp Hnone]]]].
      exists (c :: before), after. subst cols. simpl. split; [reflexivity |].
      split; [exact Hp |]. intros x [<- | Hx]; auto.
    + intros [before [after [Heq [Hp Hnone]]]].
      destruct before as [| b before]; simpl in Heq; injection Heq as <- Heq.
      * congruence.
      * apply IH. exists before, after. split; [exact Heq |].
        split; [exact Hp |]. intros x Hx. apply Hnone. right. exact Hx.
Qed.

Lemma find_none_no_match (p : string -> bool) (cols : list string) :
  find p cols = None <-> no_match p cols.
Proof.
  unfold no_match. induction cols as [| c cols IH]; simpl.
  - split; [intros _ c [] | reflexivity].
  - destruct (p c) eqn:Hc; split.
    + discriminate.
    + intros H. rewrite (H c) in Hc by (left; reflexivity). discriminate.
    + intros H x [<- | Hx]; [exact Hc | apply IH; assumption].
    + intros H. apply IH. intros x Hx. apply H. right. exact Hx.
Qed.

Lemma mapM_raise_inv {A B : Type} (f : A -> result B) :
  forall l e, mapM f l = Raise e -> exists a, In a l /\ f a = Raise e.
Proof.
  induction l as [| a l IH]; simpl; intros e H.
  - discriminate.
  - destruct (f a) as [b | e'] eqn:Hfa; simpl in H.
    + destruct (mapM f l) as [bs | e''] eqn:Hl; simpl in H; [discriminate |].
      injection H as ->. destruct (IH e eq_refl) as [x [Hx Hfx]]. eauto.
    + injection H as ->. eauto.
Qed.

Lemma stamp_row_raise to_datetime cols datetime_col row e :
  stamp_row to_datetime cols datetime_col row = Raise e -> e = DataFormat.
Proof.
  unfold stamp_row. destruct (to_datetime _); [discriminate |].
  intros H. injection H as <-. reflexivity.
Qed.

Lemma normalise_raise cols type_col pnl_col r e :
  normalise cols type_col pnl_col r = Raise e -> e = PyTypeError.
Proof.
  unfold normalise, pnl_value. destruct r as [row t].
  destruct (row_get cols pnl_col row); simpl; intros H;
    try discriminate; injection H as <-; reflexivity.
Qed.

(** What [resolve_pnl_col] returns, in terms of the two passes. *)
Lemma resolve_pnl_col_ok (cols : list string) (col : string) :
  resolve_pnl_col cols = Ok col
  <-> first_match is_pnl_name_strict cols col
      \/ (no_match is_pnl_name_strict cols /\ first_match is_pnl_name_loose cols col).
Proof.
  unfold resolve_pnl_col, find_pnl_col.
  rewrite <- !find_some_first_match, <- find_none_no_match.
  destruct (find is_pnl_name_strict cols) as [c |] eqn:Hstrict.
  - split.
    + intros H. left. congruence.
    + intros [H | [H _]]; congruence.
  - destruct (find is_pnl_name_loose cols) as [c |] eqn:Hloose; split.
    + intros H. right. split; congruence.
    + intros [H | [_ H]]; congruence.
    + discriminate.
    + intros [H | [_ H]]; discriminate.
Qed.

Lemma resolve_pnl_col_raise (cols : list string) (e : error) :
  resolve_pnl_col cols = Raise e
  <-> e = MissingPnlColumn
      /\ no_match is_pnl_name_strict cols /\ no_match is_pnl_name_loose cols.
Proof.
  unfold resolve_pnl_col, find_pnl_col.
  rewrite <- !find_none_no_match.
  destruct (find is_pnl_name_strict cols) as [c |] eqn:Hstrict.
  - split; [discriminate | intros [_ [H _]]; discriminate].
  - destruct (find is_pnl_name_loose cols) as [c |] eqn:Hloose; split.
    + discriminate.
    + intros [_ [_ H]]; discriminate.
    + intros H. injection H as <-. auto.
    + intros [-> _]. reflexivity.
Qed.

(** Once the timestamp column is found, [process_trades] raises the
    missing-P&L error exactly when the resolver does. *)
Lemma process_trades_missing_pnl to_datetime (df : DataFrame) (datetime_col : string) :
  find_datetime_col (columns df) = Some datetime_col ->
  (process_trades to_datetime df = Raise MissingPnlColumn
   <-> resolve_pnl_col (columns df) = Raise MissingPnlColumn).
Proof.
  intros Hdt. unfold process_trades, resolve_datetime_col. rewrite Hdt. simpl.
  destruct (resolve_pnl_col (columns df)) as [pnl_col | e] eqn:Hpnl; simpl.
  - split; [| discriminate].
    destruct (mapM _ (rows df)) as [stamped | e] eqn:Hst; simpl.
    + destruct (len _ =? 0); [discriminate |].
      destruct (String.eqb pnl_col datetime_col); [discriminate |].
      intros H. apply mapM_raise_inv in H. destruct H as [r [_ H]].
      apply normalise_raise in H. discriminate.
    + intros H. injection H as ->.
      apply mapM_raise_inv in Hst. destruct Hst as [r [_ H]].
      apply stamp_row_raise in H. discriminate.
  - split; intros H; injection H as ->; reflexivity.
Qed.

(** C6.  For every sequence of column names: the P&L column is the first
    name, in table order, whose lower-cased form contains "p&l", "pnl" or
    "profit" and also "usd" or "net"; when no name passes that test it is the
    first whose lower-cased form contains "p&l" or "pnl"; and the resolver
    raises the missing-P&L-column error exactly when neither pass finds a
    name.  In [process_trades] the error reaches the caller exactly in that
    case, once the timestamp column has been found. *)
Theorem pnl_column_two_pass_resolution (cols : list string) :
  (forall col, first_match is_pnl_name_strict cols col ->
               resolve_pnl_col cols = Ok col)
  /\ (no_match is_pnl_name_strict cols ->
      forall col, first_match is_pnl_name_loose cols col ->
                  resolve_pnl_col cols = Ok col)
  /\ (resolve_pnl_col cols = Raise MissingPnlColumn
      <-> no_match is_pnl_name_strict cols /\ no_match is_pnl_name_loose cols)
  /\ (forall e, resolve_pnl_col cols = Raise e -> e = MissingPnlColumn)
  /\ (forall to_datetime rows datetime_col,
        find_datetime_col cols = Some datetime_col ->
        (process_trades to_datetime (mkDataFrame cols rows) = Raise MissingPnlColumn
         <-> no_match is_pnl_name_strict cols /\ no_match is_pnl_name_loose cols)).
Proof.
  assert (Hraise : resolve_pnl_col cols = Raise MissingPnlColumn
                   <-> no_match is_pnl_name_strict cols
                       /\ no_match is_pnl_name_loose cols).
  { rewrite resolve_pnl_col_raise. tauto. }
  split; [| split; [| split; [| split]]].
  - intros col H. apply resolve_pnl_col_ok. left. exact H.
  - intros Hnone col H. apply resolve_pnl_col_ok. right. split; assumption.
  - exact Hraise.
  - intros e H. apply resolve_pnl_col_raise in H. tauto.
  - intros to_datetime rows datetime_col Hdt.
    rewrite <- Hraise.
    apply (process_trades_missing_pnl to_datetime (mkDataFrame cols rows) datetime_col).
    exact Hdt.
Qed.

(** ** Trade normaliser *)

(** The stages a successful run of [process_trades] went through. *)
Lemma process_trades_ok_inv to_datetime (df : DataFrame) (es : list Entry) :
  process_trades to_datetime df = Ok es ->
  exists datetime_col pnl_col stamped,
    find_datetime_col (columns df) = Some datetime_col
    /\ resolve_pnl_col (columns df) = Ok pnl_col
    /\ mapM (stamp_row to_datetime (columns df) datetime_col) (rows df) = Ok stamped
    /\ entry_rows (columns df) (find_type_col (columns df)) stamped <> []
    /\ String.eqb pnl_col datetime_col = false
    /\ mapM (normalise (columns df) (find_type_col (columns df)) pnl_col)
            (filter_map keep_in_range
               (entry_rows (columns df) (find_type_col (columns df)) stamped))
       = Ok es.
Proof.
  unfold process_trades, resolve_datetime_col.
  destruct (find_datetime_col (columns df)) as [datetime_col |] eqn:Hdt;
    simpl; [| discriminate].
  destruct (resolve_pnl_col (columns df)) as [pnl_col | e] eqn:Hpnl;
    simpl; [| discriminate].
  destruct (mapM _ (rows df)) as [stamped | e] eqn:Hst; simpl; [| discriminate].
  destruct (len _ =? 0) eqn:Hlen; [discriminate |].
  destruct (String.eqb pnl_col datetime_col) eqn:Heqb; [discriminate |].
  intros H. exists datetime_col, pnl_col, stamped.
  split; [reflexivity |]. split; [reflexivity |]. split; [exact Hst |].
  split; [| split; [exact Heqb | exact H]].
  intros Hnil. apply len_nil_iff in Hnil. congruence.
Qed.

Lemma stamp_row_ok_inv to_datetime cols datetime_col row r :
  stamp_row to_datetime cols datetime_col row = Ok r ->
  exists t, to_datetime (row_get cols datetime_col row) = Some t /\ r = (row, t).
Proof.
  unfold stamp_row. destruct (to_datetime _) as [t |]; [| discriminate].
  intros H. injection H as <-. eauto.
Qed.

(** A qualifying row is among the rows that pass the entry filter. *)
Lemma qualifying_in_entry_rows to_datetime df datetime_col stamped row t :
  find_datetime_col (columns df) = Some datetime_col ->
  mapM (stamp_row to_datetime (columns df) datetime_col) (rows df) = Ok stamped ->
  qualifying to_datetime df row t ->
  In (row, t) (entry_rows (columns df) (find_type_col (columns df)) stamped).
Proof.
  intros Hdt Hst [Hin [[dc [Hdc Ht]] Htype]].
  rewrite Hdt in Hdc. injection Hdc as <-.
  apply mapM_ok_inv in Hst.
  destruct (Forall2_in_l _ _ _ Hst row Hin) as [r [Hr Hrow]].
  apply stamp_row_ok_inv in Hrow. destruct Hrow as [t' [Ht' ->]].
  rewrite Ht in Ht'. injection Ht' as <-.
  unfold entry_rows. destruct (find_type_col (columns df)) as [tc |].
  - apply filter_In. split; [exact Hr |]. simpl. apply Htype. reflexivity.
  - exact Hr.
Qed.

Lemma keep_in_range_some row t r :
  keep_in_range (row, t) = Some r ->
  exists t', t = Some t' /\ r = (row, t') /\ 0 <= row_cycle_num t' <= 6.
Proof.
  unfold keep_in_range, in_cycle_range. simpl.
  destruct t as [t' |]; [| discriminate].
  destruct (0 <=? row_cycle_num t') eqn:H0; simpl; [| discriminate].
  destruct (row_cycle_num t' <=? 6) eqn:H6; [| discriminate].
  intros H. injection H as <-. exists t'. repeat split; lia.
Qed.

Lemma keep_in_range_in row t :
  0 <= row_cycle_num t <= 6 -> keep_in_range (row, Some t) = Some (row, t).
Proof.
  intros [H0 H6]. unfold keep_in_range, in_cycle_range. simpl.
  apply Z.leb_le in H0, H6. rewrite H0, H6. reflexivity.
Qed.

Lemma keep_in_range_out row t :
  ~ (0 <= row_cycle_num t <= 6) -> keep_in_range (row, Some t) = None.
Proof.
  intros H. destruct (keep_in_range (row, Some t)) as [r |] eqn:Hk; [| reflexivity].
  apply keep_in_range_some in Hk. destruct Hk as [t' [Ht' [_ Hr]]].
  injection Ht' as <-. contradiction.
Qed.

Lemma normalise_ok_inv cols type_col pnl_col row t e :
  normalise cols type_col pnl_col (row, t) = Ok e ->
  source_row e = row /\ hour e = ts_hour t /\ minute e = ts_minute t
  /\ date e = ts_date t /\ total_mins e = row_total_mins t
  /\ cycle_num e = row_cycle_num t
  /\ pnl_value (row_get cols pnl_col row) = Ok (pnl e)
  /\ is_win e = num_gt0 (pnl e)
  /\ trade_type e = match type_col with
                    | Some tc => side_of (row_get cols tc row)
                    | None => Unknown
                    end.
Proof.
  unfold normalise. destruct (pnl_value _) as [p | err]; simpl; [| discriminate].
  intros H. injection H as <-. simpl. repeat split; reflexivity.
Qed.

(** Every entry that [process_trades] returns comes from a row of the
    table that passed both filters. *)
Lemma process_trades_entries to_datetime df es e :
  process_trades to_datetime df = Ok es -> In e es ->
  exists row t,
    qualifying to_datetime df row (Some t)
    /\ entry_of row t e
    /\ cycle_num e = row_cycle_num t
    /\ 0 <= row_cycle_num t <= 6.
Proof.
  intros Hok Hin. apply process_trades_ok_inv in Hok.
  destruct Hok as (dc & pc & stamped & Hdc & Hpc & Hst & Hne & Hneq & Hnorm).
  apply mapM_ok_inv in Hnorm.
  destruct (Forall2_in_r _ _ _ Hnorm e Hin) as [[row t] [Hr He]].
  apply in_filter_map in Hr. destruct Hr as [[row' t'] [Hr' Hk]].
  apply keep_in_range_some in Hk. destruct Hk as [t0 [-> [Heq Hrange]]].
  injection Heq as -> ->.
  apply normalise_ok_inv in He.
  destruct He as (Hs & Hh & Hm & Hd & _ & Hc & _).
  exists row', t0. repeat split; try assumption; try lia.
  - (* the row is in the table *)
    apply mapM_ok_inv in Hst.
    assert (Hin' : In (row', Some t0) stamped).
    { unfold entry_rows in Hr'. destruct (find_type_col (columns df)).
      - apply filter_In in Hr'. tauto.
      - exact Hr'. }
    destruct (Forall2_in_r _ _ _ Hst _ Hin') as [row0 [Hrow0 Hs0]].
    apply stamp_row_ok_inv in Hs0. destruct Hs0 as [t1 [_ Heq]].
    injection Heq as <- _. exact Hrow0.
  - exists dc. split; [exact Hdc |].
    apply mapM_ok_inv in Hst.
    assert (Hin' : In (row', Some t0) stamped).
    { unfold entry_rows in Hr'. destruct (find_type_col (columns df)).
      - apply filter_In in Hr'. tauto.
      - exact Hr'. }
    destruct (Forall2_in_r _ _ _ Hst _ Hin') as [row0 [Hrow0 Hs0]].
    apply stamp_row_ok_inv in Hs0. destruct Hs0 as [t1 [Ht1 Heq]].
    injection Heq as <- <-. exact Ht1.
  - intros tc Htc. unfold entry_rows in Hr'. rewrite Htc in Hr'.
    apply filter_In in Hr'. simpl in Hr'. tauto.
Qed.

(** An instance of [pd.to_datetime] for the examples: a timestamp cell is
    kept, a missing cell becomes NaT, anything else raises. *)
Definition to_datetime_cells (c : cell) : option (option Timestamp) :=
  match c with
  | CTime t => Some (Some t)
  | CNull => Some None
  | _ => None
  end.

Definition at_time (h m : Z) : Timestamp := mkTimestamp (mkDate 2024 1 2) h m 0.

Definition trade_row (t : Timestamp) (type : string) (p : Q) : list cell :=
  [CTime t; CStr type; CNum p].

Definition trade_columns : list string := ["Date/Time"; "Type"; "Net P&L USD"]%string.

(** Three entries, at 08:20, 06:59 and 16:20. *)
Definition boundary_df : DataFrame :=
  mkDataFrame trade_columns
    [trade_row (at_time 8 20) "Entry long" 10;
     trade_row (at_time 6 59) "Entry long" 10;
     trade_row (at_time 16 20) "Entry short" 10].

Lemma entry_cycle_num to_datetime df es e :
  process_trades to_datetime df = Ok es -> In e es ->
  cycle_num e = ((hour e - 7) * 60 + minute e) / 80 /\ 0 <= cycle_num e <= 6.
Proof.
  intros Hok Hin.
  destruct (process_trades_entries _ _ _ _ Hok Hin)
    as (row & t & _ & (_ & Hh & Hm & _) & Hc & Hrange).
  rewrite Hc, Hh, Hm. split; [reflexivity | exact Hrange].
Qed.

(** C1.  For every qualifying entry row (a row that passes the entry
    filter and has a timestamp), the cycle index is
    floor(((hour - 7) * 60 + minute) / 80), and the row is among the entries
    handed to the aggregator exactly when that index lies in [0,6].  A trade
    at 08:20 is in cycle 1; trades at 06:59 and at 16:20 have index -1 and 7
    and are dropped. *)
Theorem cycle_index_floor_and_range :
  (forall to_datetime df es row t,
      process_trades to_datetime df = Ok es ->
      qualifying to_datetime df row (Some t) ->
      let idx := ((ts_hour t - 7) * 60 + ts_minute t) / 80 in
      ((exists e, In e es /\ entry_of row t e /\ cycle_num e = idx)
       <-> 0 <= idx <= 6)
      /\ (forall e, In e es -> entry_of row t e -> cycle_num e = idx))
  /\ (forall to_datetime df es e,
         process_trades to_datetime df = Ok es -> In e es ->
         cycle_num e = ((hour e - 7) * 60 + minute e) / 80
         /\ 0 <= cycle_num e <= 6)
  /\ row_cycle_num (at_time 8 20) = 1
  /\ row_cycle_num (at_time 6 59) = -1
  /\ row_cycle_num (at_time 16 20) = 7
  /\ (exists es,
         process_trades to_datetime_cells boundary_df = Ok es
         /\ map (fun e => (hour e, minute e, cycle_num e)) es = [(8, 20, 1)]).
Proof.
  split; [| split; [| split; [| split; [| split]]]].
  - intros to_datetime df es row t Hok Hq idx.
    assert (Hidx : idx = row_cycle_num t) by reflexivity.
    split; [split |].
    + intros [e [Hin [_ Hc]]].
      destruct (entry_cycle_num _ _ _ _ Hok Hin) as [_ Hrange].
      rewrite <- Hc. exact Hrange.
    + intros Hrange. rewrite Hidx in Hrange |- *.
      pose proof Hok as Hinv. apply process_trades_ok_inv in Hinv.
      destruct Hinv as (dc & pc & stamped & Hdc & _ & Hst & _ & _ & Hnorm).
      pose proof (qualifying_in_entry_rows _ _ _ _ _ _ Hdc Hst Hq) as Hin.
      assert (Hkept : In (row, t)
                (filter_map keep_in_range
                   (entry_rows (columns df) (find_type_col (columns df)) stamped))).
      { apply in_filter_map. exists (row, Some t). split; [exact Hin |].
        apply keep_in_range_in. exact Hrange. }
      apply mapM_ok_inv in Hnorm.
      destruct (Forall2_in_l _ _ _ Hnorm _ Hkept) as [e [He Hn]].
      apply normalise_ok_inv in Hn.
      destruct Hn as (Hs & Hh & Hm & Hd & _ & Hc & _).
      exists e. split; [exact He |]. split; [| exact Hc].
      unfold entry_of. auto.
    + intros e Hin (_ & Hh & Hm & _).
      destruct (entry_cycle_num _ _ _ _ Hok Hin) as [Hc _].
      rewrite Hc, Hh, Hm. reflexivity.
  - intros to_datetime df es e. apply entry_cycle_num.
  - reflexivity.
  - reflexivity.
  - reflexivity.
  - eexists. split; [vm_compute; reflexivity | reflexivity].
Qed.

(** The entries that [process_trades] returns for [boundary_df]. *)
Definition boundary_entries : list Entry :=
  [ {| source_row := trade_row (at_time 8 20) "Entry long" 10;
       hour := 8; minute := 20; date := mkDate 2024 1 2;
       total_mins := 80; cycle_num := 1;
       is_win := true; pnl := Num 10; trade_type := Long |} ].

Lemma boundary_df_qualifying :
  qualifying to_datetime_cells boundary_df
    (trade_row (at_time 8 20) "Entry long" 10) (Some (at_time 8 20)).
Proof.
  split; [left; reflexivity |]. split.
  - exists "Date/Time"%string. split; reflexivity.
  - intros type_col H. vm_compute in H. injection H as <-. reflexivity.
Qed.

(** The theorem at [boundary_df]: the 08:20 row is kept, in cycle 1. *)
Lemma cycle_index_floor_and_range_witness :
  exists e, In e boundary_entries
            /\ entry_of (trade_row (at_time 8 20) "Entry long" 10) (at_time 8 20) e
            /\ cycle_num e = 1.
Proof.
  apply (proj2 (proj1 (proj1 cycle_index_floor_and_range
                         to_datetime_cells boundary_df boundary_entries
                         (trade_row (at_time 8 20) "Entry long" 10) (at_time 8 20)
                         eq_refl boundary_df_qualifying))).
  vm_compute. split; discriminate.
Defined.

(** ** Rounding *)



(** The rounded integer is within one half of the value. *)
Lemma round_half_even_close (q : Q) :
  (Qabs (q - inject_Z (round_half_even q)) <= 1 # 2)%Q.
Proof.
  unfold round_half_even.
  pose proof (Qfloor_le q) as Hlo.
  pose proof (Qlt_floor q) as Hhi.
  rewrite inject_Z_plus in Hhi. change (inject_Z 1) with 1%Q in Hhi.
  assert (Hup : forall f, (inject_Z (f + 1) == inject_Z f + 1)%Q)
    by (intros f; rewrite inject_Z_plus; reflexivity).
  set (f := Qfloor q) in *.
  destruct (Qcompare (q - inject_Z f) (1 # 2)) eqn:Hc.
  - apply Qeq_alt in Hc.
    destruct (Z.even f).
    + apply Qabs_Qle_condition. split; lra.
    + apply Qabs_Qle_condition. rewrite Hup. split; lra.
  - apply Qlt_alt in Hc. apply Qabs_Qle_condition. split; lra.
  - apply Qgt_alt in Hc. apply Qabs_Qle_condition. rewrite Hup. split; lra.
Qed.



(** ** Cycle aggregator *)

Lemma len_nonneg {A : Type} (l : list A) : 0 <= len l.
Proof. unfold len. lia. Qed.

Lemma sum_is_win_le_len (data : list Entry) : 0 <= sum_is_win data <= len data.
Proof.
  unfold sum_is_win, len. split; [lia |].
  apply inj_le. apply filter_length_le.
Qed.



(** A row of the cycle frame is the loop body at one cycle of [range(7)]
    that has data. *)
Lemma in_calculate_cycle_stats (es : list Entry) (row : Cycle.t) :
  In row (calculate_cycle_stats es)
  <-> exists cycle, 0 <= cycle <= 6 /\ cycle_row es cycle = Some row.
Proof.
  unfold calculate_cycle_stats. rewrite in_filter_map. split.
  - intros [c [Hc Hrow]]. exists c. split; [| exact Hrow].
    simpl in Hc. lia.
  - intros [c [Hc Hrow]]. exists c. split; [| exact Hrow].
    simpl. lia.
Qed.

Lemma cycle_row_some (es : list Entry) (cycle : Z) (row : Cycle.t) :
  cycle_row es cycle = Some row ->
  let cycle_data := filter (fun e => cycle_num e =? cycle) es in
  len cycle_data <> 0
  /\ Cycle.cycle row = cycle
  /\ Cycle.total_trades row = len cycle_data
  /\ Cycle.wins row = sum_is_win cycle_data
  /\ Cycle.losses row = len cycle_data - sum_is_win cycle_data
  /\ Cycle.win_rate row = win_pct cycle_data 1
  /\ Cycle.long_trades row = len (with_side Long cycle_data)
  /\ Cycle.short_trades row = len (with_side Short cycle_data).
Proof.
  intros H cycle_data. unfold cycle_row in H. fold cycle_data in H.
  destruct (len cycle_data =? 0) eqn:Hlen; [discriminate |].
  injection H as <-. simpl.
  apply Z.eqb_neq in Hlen. repeat split; try reflexivity. exact Hlen.
Qed.



(** Two wins out of three trades, all in cycle 0. *)
Definition two_of_three_df : DataFrame :=
  mkDataFrame trade_columns
    [trade_row (at_time 7 5) "Entry long" 100;
     trade_row (at_time 7 30) "Entry short" 50;
     trade_row (at_time 8 0) "Entry long" (-40)].

Definition two_of_three : list Entry :=
  [ {| source_row := trade_row (at_time 7 5) "Entry long" 100;
       hour := 7; minute := 5; date := mkDate 2024 1 2;
       total_mins := 5; cycle_num := 0;
       is_win := true; pnl := Num 100; trade_type := Long |};
    {| source_row := trade_row (at_time 7 30) "Entry short" 50;
       hour := 7; minute := 30; date := mkDate 2024 1 2;
       total_mins := 30; cycle_num := 0;
       is_win := true; pnl := Num 50; trade_type := Short |};
    {| source_row := trade_row (at_time 8 0) "Entry long" (-40);
       hour := 8; minute := 0; date := mkDate 2024 1 2;
       total_mins := 60; cycle_num := 0;
       is_win := false; pnl := Num (-40); trade_type := Long |} ].

Lemma two_of_three_processed :
  process_trades to_datetime_cells two_of_three_df = Ok two_of_three.
Proof. vm_compute. reflexivity. Qed.







(** ** Sorting *)

(** [a] stands before [b] in [l]. *)
Definition before {A : Type} (a b : A) (l : list A) : Prop :=
  exists l1 l2 l3, l = l1 ++ a :: l2 ++ b :: l3.







Section SortValuesProperties.

Context {A : Type} (key : A -> Q).












End SortValuesProperties.

(** ** Rankings *)




(** The cycle frame has at most seven rows, the size for which numpy's
    sort is the insertion sort of [argsort]. *)
Lemma calculate_cycle_stats_length (es : list Entry) :
  (List.length (calculate_cycle_stats es) <= 7)%nat.
Proof.
  unfold calculate_cycle_stats.
  assert (H : forall (l : list Z),
             (List.length (filter_map (cycle_row es) l) <= List.length l)%nat).
  { induction l as [| c l IH]; simpl; [lia |].
    destruct (cycle_row es c); simpl; lia. }
  apply (H (range 7)).
Qed.


(** An entry as [process_trades] builds it, from its time, P&L and side. *)
Definition entry_at (h m : Z) (p : Q) (s : side) : Entry :=
  {| source_row := [];
     hour := h; minute := m; date := mkDate 2024 1 2;
     total_mins := row_total_mins (at_time h m);
     cycle_num := row_cycle_num (at_time h m);
     is_win := num_gt0 (Num p); pnl := Num p; trade_type := s |}.

(** Cycles 0 and 2 both at 50.0, cycle 1 at 100.0. *)
Definition tie_entries : list Entry :=
  [ entry_at 7 10 20 Long; entry_at 7 40 (-20) Short;
    entry_at 8 30 35 Long;
    entry_at 10 0 (-5) Long; entry_at 10 30 15 Short ].

Definition tie_rows : list Cycle.t := calculate_cycle_stats tie_entries.



(** ** Recommended schedule *)





(** ** Report renderer *)

(** The last [n] characters of a rendered report. *)
Definition report_tail (n : nat) (r : result string) : string :=
  match r with
  | Ok s => substring (String.length s - n) n s
  | Raise _ => ""%string
  end.

(** An instance of [str] on numbers for the examples: integers only. *)
Definition str_number_int (q : Q) : string := str_int (Qfloor q).

Definition clock (h m s : Z) : Timestamp := mkTimestamp (mkDate 2026 11 3) h m s.

Lemma report_footer_minute (now1 now2 : Timestamp) :
  ts_date now1 = ts_date now2 ->
  ts_hour now1 = ts_hour now2 ->
  ts_minute now1 = ts_minute now2 ->
  report_footer now1 = report_footer now2.
Proof.
  intros Hd Hh Hm. unfold report_footer, strftime_report.
  rewrite Hd, Hh, Hm. reflexivity.
Qed.

(** The report is a text that does not depend on the clock, followed by
    the footer. *)
Lemma generate_report_body_footer str_number cycle_stats overall_stats props :
  (exists e, forall now,
      generate_report str_number now cycle_stats overall_stats props = Raise e)
  \/ (exists body, forall now,
         generate_report str_number now cycle_stats overall_stats props
         = Ok (body ++ report_footer now)%string).
Proof.
  unfold generate_report. destruct cycle_stats as [| first rest].
  - left. eexists. intros now. reflexivity.
  - right. eexists. intros now. reflexivity.
Qed.

(** C4, as the code has it.  The report is a function of the cycle rows,
    the overall statistics, the properties and the clock reading printed in
    the footer: two renderings of the same inputs give the same text whenever
    the two clock readings agree on the date, the hour and the minute, and
    the text before the footer does not depend on the clock at all. *)
Theorem report_fixed_by_inputs_and_clock_minute
    (str_number : Q -> string) (now1 now2 : Timestamp)
    (cycle_stats : list Cycle.t) (overall_stats : Overall.t) (props : props_dict) :
  ts_date now1 = ts_date now2 ->
  ts_hour now1 = ts_hour now2 ->
  ts_minute now1 = ts_minute now2 ->
  generate_report str_number now1 cycle_stats overall_stats props
  = generate_report str_number now2 cycle_stats overall_stats props
  /\ ((exists e, forall now,
          generate_report str_number now cycle_stats overall_stats props = Raise e)
      \/ (exists body, forall now,
             generate_report str_number now cycle_stats overall_stats props
             = Ok (body ++ report_footer now)%string)).
Proof.
  intros Hd Hh Hm. split; [| apply generate_report_body_footer].
  destruct (generate_report_body_footer str_number cycle_stats overall_stats props)
    as [[e He] | [body Hbody]].
  - rewrite !He. reflexivity.
  - rewrite !Hbody. rewrite (report_footer_minute now1 now2 Hd Hh Hm). reflexivity.
Qed.

(** The theorem at two readings within the minute 09:05. *)
Lemma report_fixed_by_inputs_and_clock_minute_witness :
  generate_report str_number_int (clock 9 5 0) tie_rows
    (calculate_overall_stats tie_entries) []
  = generate_report str_number_int (clock 9 5 59) tie_rows
      (calculate_overall_stats tie_entries) [].
Proof.
  apply (report_fixed_by_inputs_and_clock_minute str_number_int
           (clock 9 5 0) (clock 9 5 59)); reflexivity.
Defined.

(** C4, as the claim states it, fails: the same cycle rows, overall
    statistics and properties rendered at 09:05 and at 09:06 give two
    different texts, since the footer prints [datetime.now()]. *)
Lemma report_differs_across_clock_readings :
  generate_report str_number_int (clock 9 5 0) tie_rows
    (calculate_overall_stats tie_entries) []
  <> generate_report str_number_int (clock 9 6 0) tie_rows
       (calculate_overall_stats tie_entries) [].
Proof.
  intros H. apply (f_equal (report_tail 60)) in H.
  vm_compute in H. discriminate.
Qed.

(** ** Tabular loader *)

Definition is_props_sheet_name (name : string) : bool :=
  PyStr.contains "propert" (PyStr.lower name).

(** [col] is a column of [df] up to the case of its letters. *)
Definition has_column_ignoring_case (df : DataFrame) (col : string) : bool :=
  existsb (fun c => String.eqb (PyStr.lower c) col) (columns df).

Lemma has_column_exact (df : DataFrame) (col : string) :
  has_column df col = true <-> In col (columns df).
Proof.
  unfold has_column. rewrite existsb_exists. split.
  - intros [c [Hc Heq]]. apply String.eqb_eq in Heq. subst. exact Hc.
  - intros H. exists col. split; [exact H | apply String.eqb_refl].
Qed.

Lemma load_props_first_sheet (before after : list (string * DataFrame))
    (name : string) (props_df : DataFrame) :
  is_props_sheet_name name = true ->
  (forall s, In s before -> is_props_sheet_name (fst s) = false) ->
  load_props (before ++ (name, props_df) :: after)
  = if has_column props_df "name" && has_column props_df "value"
    then combine (column props_df "name") (column props_df "value")
    else [].
Proof.
  unfold is_props_sheet_name. intros Hname Hbefore.
  induction before as [| [n d] before IH]; simpl.
  - rewrite Hname. reflexivity.
  - pose proof (Hbefore (n, d) (or_introl eq_refl)) as Hnd. simpl in Hnd.
    rewrite Hnd.
    apply IH. intros s Hs. apply Hbefore. right. exact Hs.
Qed.

Lemma load_props_no_sheet (all_sheets : list (string * DataFrame)) :
  (forall s, In s all_sheets -> is_props_sheet_name (fst s) = false) ->
  load_props all_sheets = [].
Proof.
  unfold is_props_sheet_name. intros Hnone.
  induction all_sheets as [| [n d] rest IH]; simpl; [reflexivity |].
  pose proof (Hnone (n, d) (or_introl eq_refl)) as Hnd. simpl in Hnd.
  rewrite Hnd.
  apply IH. intros s Hs. apply Hnone. right. exact Hs.
Qed.

Lemma load_data_props (ext : string) (file : file_data) (df : DataFrame)
    (props : props_dict) :
  load_data ext file = Ok (df, props) ->
  props = match file with
          | Workbook all_sheets => load_props all_sheets
          | Delimited _ => []
          end.
Proof.
  unfold load_data.
  destruct (String.eqb (PyStr.lower ext) ".xlsx" || String.eqb (PyStr.lower ext) ".xls").
  - destruct file as [all_sheets | d]; [| discriminate].
    intros H. apply bind_ok_inv in H. destruct H as [df' [_ H]].
    injection H as _ <-. reflexivity.
  - destruct (String.eqb (PyStr.lower ext) ".csv"); [| discriminate].
    destruct file as [all_sheets | d]; [discriminate |].
    intros H. injection H as _ <-. reflexivity.
Qed.

(** C5, as the code has it.  For every spreadsheet input, the first sheet
    in workbook order whose name contains "propert" (case-insensitive)
    decides the metadata: it is built row-wise from the columns "name" and
    "value" when the sheet has columns of exactly these names, in lower
    case, and is empty otherwise; it is empty too when no sheet name
    contains "propert", and for a delimited file. *)
Theorem metadata_from_first_properties_sheet
    (ext : string) (file : file_data) (df : DataFrame) (props : props_dict) :
  load_data ext file = Ok (df, props) ->
  (forall all_sheets before name props_df after,
      file = Workbook all_sheets ->
      all_sheets = before ++ (name, props_df) :: after ->
      is_props_sheet_name name = true ->
      (forall s, In s before -> is_props_sheet_name (fst s) = false) ->
      (In "name"%string (columns props_df) -> In "value"%string (columns props_df) ->
       props = combine (column props_df "name") (column props_df "value"))
      /\ (~ (In "name"%string (columns props_df)
             /\ In "value"%string (columns props_df)) ->
          props = []))
  /\ (forall all_sheets,
         file = Workbook all_sheets ->
         (forall s, In s all_sheets -> is_props_sheet_name (fst s) = false) ->
         props = [])
  /\ (forall d, file = Delimited d -> props = []).
Proof.
  intros Hload. apply load_data_props in Hload.
  split; [| split].
  - intros all_sheets before name props_df after -> -> Hname Hbefore.
    rewrite (load_props_first_sheet before after name props_df Hname Hbefore)
      in Hload.
    split.
    + intros Hn Hv. apply has_column_exact in Hn, Hv.
      rewrite Hn, Hv in Hload. exact Hload.
    + intros Hnot.
      destruct (has_column props_df "name") eqn:Hn;
        destruct (has_column props_df "value") eqn:Hv;
        try exact Hload.
      exfalso. apply Hnot. split; apply has_column_exact; assumption.
  - intros all_sheets -> Hnone.
    rewrite (load_props_no_sheet all_sheets Hnone) in Hload. exact Hload.
  - intros d ->. exact Hload.
Qed.

Definition trades_sheet_example : DataFrame :=
  mkDataFrame trade_columns [trade_row (at_time 8 20) "Entry long" 10].

(** A properties sheet with the lower-case headers. *)
Definition props_sheet_lower : DataFrame :=
  mkDataFrame ["name"; "value"]%string
    [[CStr "Symbol"; CStr "NQ"]; [CStr "Initial capital"; CNum 100000]].

(** The same sheet with capitalised headers. *)
Definition props_sheet_capitalised : DataFrame :=
  mkDataFrame ["Name"; "Value"]%string
    [[CStr "Symbol"; CStr "NQ"]; [CStr "Initial capital"; CNum 100000]].

Definition workbook_lower : file_data :=
  Workbook [("List of trades", trades_sheet_example);
            ("Properties", props_sheet_lower)]%string.

Definition workbook_capitalised : file_data :=
  Workbook [("List of trades", trades_sheet_example);
            ("Properties", props_sheet_capitalised)]%string.

(** The theorem at [workbook_lower]: both properties are read. *)
Lemma metadata_from_first_properties_sheet_witness :
  load_props [("List of trades", trades_sheet_example);
              ("Properties", props_sheet_lower)]%string
  = [(CStr "Symbol", CStr "NQ"); (CStr "Initial capital", CNum 100000)].
Proof.
  assert (Hload : load_data ".xlsx" workbook_lower
                  = Ok (trades_sheet_example,
                        load_props [("List of trades", trades_sheet_example);
                                    ("Properties", props_sheet_lower)]%string))
    by reflexivity.
  destruct (metadata_from_first_properties_sheet _ _ _ _ Hload) as [Hfirst _].
  destruct (Hfirst _ [("List of trades", trades_sheet_example)]%string
                   "Properties"%string props_sheet_lower []
                   eq_refl eq_refl eq_refl) as [Hbuilt _].
  - intros s [<- | []]. reflexivity.
  - apply Hbuilt.
    + left. reflexivity.
    + right. left. reflexivity.
Defined.

(** C5, as the claim states it, fails: the sheet "Properties" of
    [workbook_capitalised] has the columns "Name" and "Value", which are
    "name" and "value" up to case, and the metadata is empty all the same. *)
Lemma capitalised_headers_give_no_metadata :
  is_props_sheet_name "Properties" = true
  /\ has_column_ignoring_case props_sheet_capitalised "name" = true
  /\ has_column_ignoring_case props_sheet_capitalised "value" = true
  /\ rows props_sheet_capitalised <> []
  /\ load_data ".xlsx" workbook_capitalised = Ok (trades_sheet_example, []).
Proof.
  split; [reflexivity |]. split; [reflexivity |]. split; [reflexivity |].
  split; [discriminate | reflexivity].
Qed.

(** ** Entry filter *)

(** The rows of the table that pass the entry filter of [process_trades]:
    those whose trade type contains "entry", or all of them when there is no
    trade-type column. *)
Definition entry_filter (df : DataFrame) : list (list cell) :=
  match find_type_col (columns df) with
  | Some type_col =>
      filter (fun row => contains_entry (row_get (columns df) type_col row)) (rows df)
  | None => rows df
  end.








(** ** The empty-dataset check *)






(** Exit rows only, in a table without a P&L column. *)
Definition exits_without_pnl_df : DataFrame :=
  mkDataFrame ["Date/Time"; "Type"; "Contracts"]%string
    [[CTime (at_time 9 0); CStr "Exit long"; CNum 1];
     [CTime (at_time 9 30); CStr "Exit short"; CNum 1]].


(** ** Examples *)

(** The theorem of C6 at a table whose first three P&L-like names fail the
    first pass: the column is the first name with "p&l" and "usd". *)
Lemma pnl_column_two_pass_resolution_witness :
  resolve_pnl_col ["Date"; "Profit"; "PnL"; "Net P&L USD"; "Net Profit"]%string
  = Ok "Net P&L USD"%string.
Proof.
  apply (proj1 (pnl_column_two_pass_resolution
                  ["Date"; "Profit"; "PnL"; "Net P&L USD"; "Net Profit"]%string)).
  exists ["Date"; "Profit"; "PnL"]%string, ["Net Profit"]%string.
  split; [reflexivity |]. split; [reflexivity |].
  intros c [<- | [<- | [<- | []]]]; reflexivity.
Defined.

Example pnl_column_second_pass :
  resolve_pnl_col ["Date"; "Profit"; "PnL %"; "Cum. P&L"]%string = Ok "PnL %"%string
  /\ resolve_pnl_col ["Date"; "Profit"; "Type"]%string = Raise MissingPnlColumn.
Proof. split; reflexivity. Qed.

Example format_f_two_thirds :
  format_f false 1 (200 # 3) = "66.7"%string
  /\ format_f false 2 (200 # 3) = "66.67"%string.
Proof. split; reflexivity. Qed.

Example format_pnl_examples :
  format_pnl (Num (1234567 # 1)) = "$1,234,567"%string
  /\ format_pnl (Num (- (5 # 2))) = "-$2"%string
  /\ format_pnl_signed (Num (650 # 1)) = "+$650"%string
  /\ format_pnl (Num (- (1000 # 1))) = "-$1,000"%string
  /\ format_pnl NaN = "-$nan"%string.
Proof. repeat split; reflexivity. Qed.

Example str_date_example :
  str_date (mkDate 2024 3 7) = "2024-03-07"%string
  /\ strftime_report (mkTimestamp (mkDate 2026 11 3) 9 5 59)
     = "November 03, 2026 at 09:05"%string.
Proof. split; reflexivity. Qed.

(** The end-to-end scenario: five trades in cycle 0 (four wins) and five
    in cycle 3 (one win). *)
Definition ten_trades_df : DataFrame :=
  mkDataFrame trade_columns
    [trade_row (at_time 7 5) "Entry long" 400;
     trade_row (at_time 7 6) "Exit long" 400;
     trade_row (at_time 7 15) "Entry short" 100;
     trade_row (at_time 7 20) "Entry long" 100;
     trade_row (at_time 8 0) "Entry long" 100;
     trade_row (at_time 8 19) "Entry short" (-50);
     trade_row (at_time 11 0) "Entry long" 300;
     trade_row (at_time 11 5) "Entry short" (-50);
     trade_row (at_time 12 0) "Entry short" (-50);
     trade_row (at_time 12 10) "Entry long" (-50);
     trade_row (at_time 12 19) "Entry long" (-50)].

Example ten_trades_scenario :
  exists es,
    process_trades to_datetime_cells ten_trades_df = Ok es
    /\ map (fun row => (Cycle.cycle row, Cycle.total_trades row, Cycle.wins row,
                        Cycle.losses row,
                        format_f false 1 (Cycle.win_rate row),
                        format_pnl (Num (Cycle.total_pnl row))))
           (calculate_cycle_stats es)
       = [(0, 5, 4, 1, "80.0", "$650"); (3, 5, 1, 4, "20.0", "$100")]%string
    /\ format_f_num false 2 (Overall.overall_wr (calculate_overall_stats es))
       = "50.00"%string
    /\ format_pnl (Num (Overall.total_pnl (calculate_overall_stats es)))
       = "$750"%string
    /\ map Cycle.cycle (ranked (calculate_cycle_stats es)) = [0; 3]
    /\ map Cycle.cycle (ranked_pnl (calculate_cycle_stats es)) = [0; 3].
Proof.
  eexists. split; [vm_compute; reflexivity |].
  repeat split; vm_compute; reflexivity.
Qed.

Example boundary_rows_dropped :
  keep_in_range ([], Some (at_time 6 59)) = None
  /\ keep_in_range ([], Some (at_time 16 20)) = None
  /\ keep_in_range ([], Some (at_time 8 19)) = Some ([], at_time 8 19)
  /\ row_cycle_num (at_time 8 19) = 0
  /\ row_cycle_num (at_time 16 19) = 6.
Proof. repeat split; reflexivity. Qed.

(** * Further properties of the pipeline *)

(** ** Errors of the trade normaliser *)

(** The only errors of [process_trades]. *)
Lemma process_trades_raise_cases to_datetime (df : DataFrame) (e : error) :
  process_trades to_datetime df = Raise e ->
  e = MissingDateTimeColumn \/ e = MissingPnlColumn \/ e = DataFormat
  \/ e = EmptyDataset \/ e = PyTypeError.
Proof.
  unfold process_trades, resolve_datetime_col.
  destruct (find_datetime_col (columns df)) as [dc |]; simpl.
  - destruct (resolve_pnl_col (columns df)) as [pc | e'] eqn:Hpnl; simpl.
    + destruct (mapM _ (rows df)) as [stamped | e'] eqn:Hst; simpl.
      * destruct (len _ =? 0); [intros H; injection H as <-; tauto |].
        destruct (String.eqb pc dc); [intros H; injection H as <-; tauto |].
        intros H. apply mapM_raise_inv in H. destruct H as [r [_ H]].
        apply normalise_raise in H. tauto.
      * intros H. injection H as <-.
        apply mapM_raise_inv in Hst. destruct Hst as [r [_ H]].
        apply stamp_row_raise in H. tauto.
    + intros H. injection H as <-.
      apply resolve_pnl_col_raise in Hpnl. tauto.
  - intros H. injection H as <-. tauto.
Qed.

Lemma mapM_stamp_raise_iff to_datetime cols datetime_col (rows : list (list cell)) :
  (exists e, mapM (stamp_row to_datetime cols datetime_col) rows = Raise e)
  <-> exists row, In row rows /\ to_datetime (row_get cols datetime_col row) = None.
Proof.
  split.
  - intros [e H]. apply mapM_raise_inv in H. destruct H as [row [Hin H]].
    exists row. split; [exact Hin |].
    unfold stamp_row in H. destruct (to_datetime _); [discriminate | reflexivity].
  - intros [row [Hin Hnone]].
    destruct (mapM (stamp_row to_datetime cols datetime_col) rows) as [stamped | e] eqn:Hst.
    + apply mapM_ok_inv in Hst.
      destruct (Forall2_in_l _ _ _ Hst row Hin) as [r [_ Hr]].
      unfold stamp_row in Hr. rewrite Hnone in Hr. discriminate.
    + exists e. reflexivity.
Qed.

(** X1.  [process_trades] raises the missing-timestamp-column error
    exactly when no column name contains "date" or "time" in any letter case,
    whatever else is wrong with the table; and it raises the timestamp format
    error exactly when both columns resolve and the timestamp of some row of
    the table, entry or not, does not convert. *)
Theorem timestamp_errors_of_process_trades
    (to_datetime : cell -> option (option Timestamp)) (df : DataFrame) :
  (process_trades to_datetime df = Raise MissingDateTimeColumn
   <-> no_match is_datetime_name (columns df))
  /\ (process_trades to_datetime df = Raise DataFormat
      <-> exists datetime_col pnl_col row,
            first_match is_datetime_name (columns df) datetime_col
            /\ resolve_pnl_col (columns df) = Ok pnl_col
            /\ In row (rows df)
            /\ to_datetime (row_get (columns df) datetime_col row) = None).
Proof.
  split.
  - rewrite <- find_none_no_match. fold (find_datetime_col (columns df)).
    unfold process_trades, resolve_datetime_col.
    destruct (find_datetime_col (columns df)) as [dc |] eqn:Hdt; simpl.
    + split; [| discriminate].
      intros H. exfalso.
      destruct (resolve_pnl_col (columns df)) as [pc | e'] eqn:Hpnl; simpl in H.
      * destruct (mapM _ (rows df)) as [stamped | e'] eqn:Hst; simpl in H.
        -- destruct (len _ =? 0); [discriminate |].
           destruct (String.eqb pc dc); [discriminate |].
           apply mapM_raise_inv in H. destruct H as [r [_ H]].
           apply normalise_raise in H. discriminate.
        -- injection H as ->.
           apply mapM_raise_inv in Hst. destruct Hst as [r [_ H]].
           apply stamp_row_raise in H. discriminate.
      * injection H as ->. apply resolve_pnl_col_raise in Hpnl.
        destruct Hpnl as [H _]. discriminate.
    + tauto.
  - unfold process_trades, resolve_datetime_col.
    split.
    + intros H.
      destruct (find_datetime_col (columns df)) as [dc |] eqn:Hdt; simpl in H;
        [| discriminate].
      destruct (resolve_pnl_col (columns df)) as [pc | e'] eqn:Hpnl; simpl in H.
      * destruct (mapM _ (rows df)) as [stamped | e'] eqn:Hst; simpl in H.
        -- exfalso. destruct (len _ =? 0); [discriminate |].
           destruct (String.eqb pc dc); [discriminate |].
           apply mapM_raise_inv in H. destruct H as [r [_ H]].
           apply normalise_raise in H. discriminate.
        -- destruct (proj1 (mapM_stamp_raise_iff to_datetime (columns df) dc (rows df)))
             as [row [Hin Hnone]]; [eauto |].
           exists dc, pc, row. split; [| auto].
           apply find_some_first_match. exact Hdt.
      * injection H as ->. apply resolve_pnl_col_raise in Hpnl.
        destruct Hpnl as [H _]. discriminate.
    + intros (dc & pc & row & Hdc & Hpc & Hin & Hnone).
      apply find_some_first_match in Hdc. fold (find_datetime_col (columns df)) in Hdc.
      rewrite Hdc. simpl. rewrite Hpc. simpl.
      destruct (proj2 (mapM_stamp_raise_iff to_datetime (columns df) dc (rows df)))
        as [e He]; [eauto |].
      rewrite He. simpl. f_equal.
      apply mapM_raise_inv in He. destruct He as [r [_ H]].
      apply stamp_row_raise in H. exact H.
Qed.

(** ** Fields of a normalised trade *)

(** What [process_trades] records in an entry, in terms of the row of the
    table it comes from. *)
Lemma process_trades_entry_fields to_datetime df es e :
  process_trades to_datetime df = Ok es -> In e es ->
  exists pnl_col t,
    resolve_pnl_col (columns df) = Ok pnl_col
    /\ qualifying to_datetime df (source_row e) (Some t)
    /\ pnl_value (row_get (columns df) pnl_col (source_row e)) = Ok (pnl e)
    /\ is_win e = num_gt0 (pnl e)
    /\ trade_type e = match find_type_col (columns df) with
                      | Some tc => side_of (row_get (columns df) tc (source_row e))
                      | None => Unknown
                      end.
Proof.
  intros Hok Hin.
  destruct (process_trades_entries _ _ _ _ Hok Hin)
    as (row & t & Hq & (Hsrc & _) & _ & _).
  apply process_trades_ok_inv in Hok.
  destruct Hok as (dc & pc & stamped & _ & Hpc & _ & _ & _ & Hnorm).
  apply mapM_ok_inv in Hnorm.
  destruct (Forall2_in_r _ _ _ Hnorm e Hin) as [[row' t'] [_ He]].
  apply normalise_ok_inv in He.
  destruct He as (Hs & _ & _ & _ & _ & _ & Hp & Hw & Hside).
  rewrite <- Hs in Hp, Hside.
  exists pc, t. rewrite Hsrc.
  rewrite Hsrc in Hp, Hside.
  split; [exact Hpc |]. split; [exact Hq |]. split; [exact Hp |].
  split; [exact Hw | exact Hside].
Qed.

Lemma contains_entry_string (c : cell) :
  contains_entry c = true ->
  exists s, c = CStr s /\ PyStr.contains "entry" (PyStr.lower s) = true.
Proof.
  destruct c as [s | q | t |]; simpl; intros H; try discriminate.
  exists s. split; [reflexivity | exact H].
Qed.

(** X2.  When the table has a trade-type column, every entry comes from a
    row whose type is a string containing "entry", and its side is Long when
    that string contains "long" (in any letter case) and Short otherwise,
    never Unknown; when the table has no trade-type column every entry has
    the side Unknown. *)
Theorem side_of_every_entry
    (to_datetime : cell -> option (option Timestamp)) (df : DataFrame)
    (es : list Entry) (e : Entry) :
  process_trades to_datetime df = Ok es -> In e es ->
  (forall type_col,
      find_type_col (columns df) = Some type_col ->
      exists s,
        row_get (columns df) type_col (source_row e) = CStr s
        /\ PyStr.contains "entry" (PyStr.lower s) = true
        /\ trade_type e = (if PyStr.contains "long" (PyStr.lower s)
                           then Long else Short))
  /\ (find_type_col (columns df) = None -> trade_type e = Unknown).
Proof.
  intros Hok Hin.
  destruct (process_trades_entry_fields _ _ _ _ Hok Hin)
    as (pc & t & _ & Hq & _ & _ & Hside).
  split.
  - intros type_col Htc. rewrite Htc in Hside.
    destruct Hq as (_ & _ & Hentry).
    destruct (contains_entry_string _ (Hentry type_col Htc)) as [s [Hs Hc]].
    exists s. rewrite Hs in Hside. simpl in Hside. auto.
  - intros Hnone. rewrite Hnone in Hside. exact Hside.
Qed.

(** X3.  An entry is a win exactly when its P&L value is a number
    strictly above zero: a P&L of zero and a missing P&L are losses.  The
    value is the one of the row's P&L column. *)
Theorem win_flag_is_strictly_positive_pnl
    (to_datetime : cell -> option (option Timestamp)) (df : DataFrame)
    (es : list Entry) (e : Entry) :
  process_trades to_datetime df = Ok es -> In e es ->
  (is_win e = true <-> exists q, pnl e = Num q /\ (0 < q)%Q)
  /\ (forall q, pnl e = Num q -> (q <= 0)%Q -> is_win e = false)
  /\ (pnl e = NaN -> is_win e = false)
  /\ exists pnl_col,
       resolve_pnl_col (columns df) = Ok pnl_col
       /\ match row_get (columns df) pnl_col (source_row e) with
          | CNum q => pnl e = Num q
          | CNull => pnl e = NaN
          | _ => False
          end.
Proof.
  intros Hok Hin.
  destruct (process_trades_entry_fields _ _ _ _ Hok Hin)
    as (pc & t & Hpc & _ & Hp & Hw & _).
  assert (Hgt : forall q, Qlt_bool 0 q = true <-> (0 < q)%Q).
  { intros q. unfold Qlt_bool. rewrite negb_true_iff. split.
    - intros H. apply Qnot_le_lt. intros Hle.
      apply Qle_bool_iff in Hle. congruence.
    - intros H. destruct (Qle_bool q 0) eqn:E; [| reflexivity].
      apply Qle_bool_iff in E. exfalso. exact (Qlt_not_le _ _ H E). }
  rewrite Hw. split; [| split; [| split]].
  - destruct (pnl e) as [q |]; simpl.
    + rewrite Hgt. split.
      * intros H. exists q. auto.
      * intros [q' [Heq H]]. injection Heq as ->. exact H.
    + split; [discriminate | intros [q [H _]]; discriminate].
  - intros q -> Hle. simpl.
    destruct (Qlt_bool 0 q) eqn:E; [| reflexivity].
    apply Hgt in E. exfalso. exact (Qlt_not_le _ _ E Hle).
  - intros ->. reflexivity.
  - exists pc. split; [exact Hpc |].
    unfold pnl_value in Hp.
    destruct (row_get (columns df) pc (source_row e)); try discriminate;
      injection Hp as <-; reflexivity.
Qed.

(** ** Totals across the cycle frame *)




Definition in_cycle (c : Z) (es : list Entry) : list Entry :=
  filter (fun e => cycle_num e =? c) es.












(** ** Rows of the cycle frame *)

Lemma cycle_row_some_iff (es : list Entry) (c : Z) :
  (exists row, cycle_row es c = Some row) <-> exists e, In e es /\ cycle_num e = c.
Proof.
  unfold cycle_row. fold (in_cycle c es). split.
  - intros [row H].
    destruct (len (in_cycle c es) =? 0) eqn:Hlen; [discriminate |].
    destruct (in_cycle c es) as [| e l] eqn:Hl; [discriminate |].
    assert (Hin : In e (in_cycle c es)) by (rewrite Hl; left; reflexivity).
    unfold in_cycle in Hin. apply filter_In in Hin. destruct Hin as [Hin Hc].
    exists e. split; [exact Hin | apply Z.eqb_eq; exact Hc].
  - intros [e [Hin Hc]].
    assert (Hin' : In e (in_cycle c es)).
    { unfold in_cycle. apply filter_In. split; [exact Hin | apply Z.eqb_eq; exact Hc]. }
    destruct (len (in_cycle c es) =? 0) eqn:Hlen.
    + apply len_nil_iff in Hlen. rewrite Hlen in Hin'. destruct Hin'.
    + eexists. reflexivity.
Qed.

(** X5.  The cycle frame has a row for a cycle exactly when the cycle is
    one of 0-6 and some entry falls in it (a cycle without trades is left
    out, not listed with zeros); it has at most one row per cycle; and each
    row carries the time-range label of its cycle. *)
Theorem cycle_row_present_iff_traded (es : list Entry) :
  (forall c,
      (exists row, In row (calculate_cycle_stats es) /\ Cycle.cycle row = c)
      <-> (0 <= c <= 6 /\ exists e, In e es /\ cycle_num e = c))
  /\ (forall r1 r2,
         In r1 (calculate_cycle_stats es) -> In r2 (calculate_cycle_stats es) ->
         Cycle.cycle r1 = Cycle.cycle r2 -> r1 = r2)
  /\ (forall row,
         In row (calculate_cycle_stats es) ->
         Cycle.time_range row = CYCLE_TIMES (Cycle.cycle row)
         /\ Cycle.time_range row <> ""%string).
Proof.
  split; [| split].
  - intros c. split.
    + intros [row [Hin Hc]]. apply in_calculate_cycle_stats in Hin.
      destruct Hin as [c' [Hrange Hrow]].
      pose proof (cycle_row_some _ _ _ Hrow) as Hsome. cbv zeta in Hsome.
      destruct Hsome as (_ & Hcycle & _).
      assert (Heq : c' = c) by congruence. rewrite Heq in Hrange, Hrow.
      split; [exact Hrange |]. apply cycle_row_some_iff. eauto.
    + intros [Hrange He]. apply cycle_row_some_iff in He. destruct He as [row Hrow].
      exists row. split.
      * apply in_calculate_cycle_stats. eauto.
      * apply cycle_row_some in Hrow. cbv zeta in Hrow. tauto.
  - intros r1 r2 H1 H2 Heq.
    apply in_calculate_cycle_stats in H1, H2.
    destruct H1 as [c1 [_ Hr1]]. destruct H2 as [c2 [_ Hr2]].
    pose proof (cycle_row_some _ _ _ Hr1) as Hs1. cbv zeta in Hs1.
    pose proof (cycle_row_some _ _ _ Hr2) as Hs2. cbv zeta in Hs2.
    destruct Hs1 as (_ & Hc1 & _). destruct Hs2 as (_ & Hc2 & _).
    assert (Heq12 : c1 = c2) by congruence. rewrite Heq12 in Hr1. congruence.
  - intros row Hin. apply in_calculate_cycle_stats in Hin.
    destruct Hin as [c [Hrange Hrow]].
    unfold cycle_row in Hrow.
    destruct (len _ =? 0); [discriminate |].
    injection Hrow as <-. cbn [Cycle.time_range Cycle.cycle].
    split; [reflexivity |].
    assert (Hcase : c = 0 \/ c = 1 \/ c = 2 \/ c = 3 \/ c = 4 \/ c = 5 \/ c = 6) by lia.
    destruct Hcase as [H | [H | [H | [H | [H | [H | H]]]]]];
      rewrite H; discriminate.
Qed.

(** ** Bounds on the win rates *)

Lemma round_half_even_bounds (x : Q) (n : Z) :
  (0 <= x)%Q -> (x <= inject_Z n)%Q -> 0 <= round_half_even x <= n.
Proof.
  intros Hlo Hhi.
  pose proof (round_half_even_close x) as Hclose.
  apply Qabs_Qle_condition in Hclose. destruct Hclose as [H1 H2].
  set (r := round_half_even x) in *.
  split.
  - assert (H : (inject_Z (-1) < inject_Z r)%Q).
    { change (inject_Z (-1)) with (-1 # 1)%Q. lra. }
    rewrite <- Zlt_Qlt in H. lia.
  - assert (H : (inject_Z r < inject_Z (n + 1))%Q).
    { rewrite inject_Z_plus. change (inject_Z 1) with 1%Q. lra. }
    rewrite <- Zlt_Qlt in H. lia.
Qed.

Lemma pow10_pos (n : nat) : (0 < pow10 n)%Q.
Proof.
  unfold pow10. change 0%Q with (inject_Z 0). rewrite <- Zlt_Qlt.
  apply Z.pow_pos_nonneg; lia.
Qed.

Lemma round_nd_percent (x : Q) (ndigits : nat) :
  (0 <= x)%Q -> (x <= 100)%Q ->
  (0 <= round_nd x ndigits)%Q /\ (round_nd x ndigits <= 100)%Q.
Proof.
  intros Hlo Hhi. unfold round_nd.
  pose proof (pow10_pos ndigits) as Hpos.
  assert (Hscaled : 0 <= round_half_even (x * pow10 ndigits)
                    <= 100 * 10 ^ Z.of_nat ndigits).
  { apply round_half_even_bounds.
    - apply Qmult_le_0_compat; [exact Hlo | apply Qlt_le_weak; exact Hpos].
    - rewrite inject_Z_mult. fold (pow10 ndigits).
      change (inject_Z 100) with 100%Q.
      apply Qmult_le_compat_r; [exact Hhi | apply Qlt_le_weak; exact Hpos]. }
  destruct Hscaled as [H0 H100].
  split.
  - apply Qle_shift_div_l; [exact Hpos |]. rewrite Qmult_0_l.
    change 0%Q with (inject_Z 0). rewrite <- Zle_Qle. exact H0.
  - apply Qle_shift_div_r; [exact Hpos |].
    change 100%Q with (inject_Z 100). unfold pow10. rewrite <- inject_Z_mult.
    rewrite <- Zle_Qle. exact H100.
Qed.

Lemma win_pct_bounds (data : list Entry) (ndigits : nat) :
  len data <> 0 ->
  (0 <= win_pct data ndigits)%Q /\ (win_pct data ndigits <= 100)%Q.
Proof.
  intros Hlen. unfold win_pct.
  pose proof (sum_is_win_le_len data) as [Hw0 Hwl].
  pose proof (len_nonneg data) as Hl0.
  assert (Hlpos : (0 < inject_Z (len data))%Q).
  { change 0%Q with (inject_Z 0). rewrite <- Zlt_Qlt. lia. }
  assert (Hw0q : (0 <= inject_Z (sum_is_win data))%Q).
  { change 0%Q with (inject_Z 0). rewrite <- Zle_Qle. exact Hw0. }
  assert (Hwlq : (inject_Z (sum_is_win data) <= inject_Z (len data))%Q).
  { rewrite <- Zle_Qle. exact Hwl. }
  assert (Hratio0 : (0 <= inject_Z (sum_is_win data) / inject_Z (len data))%Q).
  { apply Qle_shift_div_l; [exact Hlpos |]. rewrite Qmult_0_l. exact Hw0q. }
  assert (Hratio1 : (inject_Z (sum_is_win data) / inject_Z (len data) <= 1)%Q).
  { apply Qle_shift_div_r; [exact Hlpos |]. rewrite Qmult_1_l. exact Hwlq. }
  apply round_nd_percent; lra.
Qed.

Lemma guarded_win_pct_bounds (data : list Entry) (ndigits : nat) :
  (0 <= (if 0 <? len data then win_pct data ndigits else 0))%Q
  /\ ((if 0 <? len data then win_pct data ndigits else 0) <= 100)%Q.
Proof.
  destruct (0 <? len data) eqn:Hlen.
  - apply win_pct_bounds. apply Z.ltb_lt in Hlen. lia.
  - split; [apply Qle_refl | discriminate].
Qed.

(** X6.  Every win rate the aggregator produces is a percentage between
    0 and 100: the win rate, long win rate and short win rate of every cycle
    row, and those of the overall statistics (the overall win rate being a
    number whenever there is at least one entry). *)
Theorem win_rates_are_percentages :
  (forall es row,
      In row (calculate_cycle_stats es) ->
      (0 <= Cycle.win_rate row <= 100)%Q
      /\ (0 <= Cycle.long_wr row <= 100)%Q
      /\ (0 <= Cycle.short_wr row <= 100)%Q)
  /\ (forall es,
         es <> [] ->
         exists q,
           Overall.overall_wr (calculate_overall_stats es) = Num q
           /\ (0 <= q <= 100)%Q)
  /\ (forall es,
         (0 <= Overall.long_wr (calculate_overall_stats es) <= 100)%Q
         /\ (0 <= Overall.short_wr (calculate_overall_stats es) <= 100)%Q).
Proof.
  split; [| split].
  - intros es row Hin. apply in_calculate_cycle_stats in Hin.
    destruct Hin as [c [_ Hrow]]. unfold cycle_row in Hrow.
    destruct (len _ =? 0) eqn:Hlen; [discriminate |].
    injection Hrow as <-.
    cbn [Cycle.win_rate Cycle.long_wr Cycle.short_wr].
    apply Z.eqb_neq in Hlen.
    split; [apply win_pct_bounds; exact Hlen |].
    split; apply guarded_win_pct_bounds.
  - intros es Hne. cbn [calculate_overall_stats Overall.overall_wr].
    destruct (len es =? 0) eqn:Hlen.
    + apply len_nil_iff in Hlen. contradiction.
    + eexists. split; [reflexivity |].
      apply win_pct_bounds. apply Z.eqb_neq. exact Hlen.
  - intros es. cbn [calculate_overall_stats Overall.long_wr Overall.short_wr].
    split; apply guarded_win_pct_bounds.
Qed.

(** ** The trading period *)

Lemma date_leb_refl (a : Date) : date_leb a a = true.
Proof.
  unfold date_leb. rewrite Z.eqb_refl, Z.eqb_refl, Z.leb_refl.
  rewrite !orb_true_r. reflexivity.
Qed.

Lemma date_leb_spec (a b : Date) :
  date_leb a b = true
  <-> year a < year b
      \/ (year a = year b
          /\ (month a < month b \/ (month a = month b /\ day a <= day b))).
Proof.
  unfold date_leb.
  rewrite orb_true_iff, andb_true_iff, orb_true_iff, andb_true_iff.
  rewrite !Z.ltb_lt, !Z.eqb_eq, Z.leb_le. tauto.
Qed.

Lemma date_leb_total (a b : Date) : date_leb a b = false -> date_leb b a = true.
Proof.
  intros H. apply date_leb_spec.
  destruct (date_leb a b) eqn:E; [discriminate |].
  assert (Hn : ~ (year a < year b
                  \/ (year a = year b
                      /\ (month a < month b \/ (month a = month b /\ day a <= day b))))).
  { intros Hc. apply date_leb_spec in Hc. congruence. }
  lia.
Qed.

Lemma date_leb_trans (a b c : Date) :
  date_leb a b = true -> date_leb b c = true -> date_leb a c = true.
Proof. rewrite !date_leb_spec. lia. Qed.

Lemma fold_date_min (ds : list Date) (d : Date) :
  let m := fold_left (fun m x => if date_leb m x then m else x) ds d in
  In m (d :: ds) /\ forall x, In x (d :: ds) -> date_leb m x = true.
Proof.
  revert d. induction ds as [| y ds IH]; intros d; cbn [fold_left].
  - split; [left; reflexivity |]. intros x [<- | []]. apply date_leb_refl.
  - destruct (date_leb d y) eqn:Hdy.
    + destruct (IH d) as [Hin Hmin]. split.
      * destruct Hin as [<- | Hin]; [left; reflexivity | right; right; exact Hin].
      * intros x [<- | [<- | Hx]].
        -- apply Hmin. left. reflexivity.
        -- apply date_leb_trans with d; [apply Hmin; left; reflexivity | exact Hdy].
        -- apply Hmin. right. exact Hx.
    + destruct (IH y) as [Hin Hmin]. split.
      * right. exact Hin.
      * intros x [<- | [<- | Hx]].
        -- apply date_leb_trans with y; [apply Hmin; left; reflexivity |].
           apply date_leb_total. exact Hdy.
        -- apply Hmin. left. reflexivity.
        -- apply Hmin. right. exact Hx.
Qed.

Lemma fold_date_max (ds : list Date) (d : Date) :
  let m := fold_left (fun m x => if date_leb x m then m else x) ds d in
  In m (d :: ds) /\ forall x, In x (d :: ds) -> date_leb x m = true.
Proof.
  revert d. induction ds as [| y ds IH]; intros d; cbn [fold_left].
  - split; [left; reflexivity |]. intros x [<- | []]. apply date_leb_refl.
  - destruct (date_leb y d) eqn:Hyd.
    + destruct (IH d) as [Hin Hmax]. split.
      * destruct Hin as [<- | Hin]; [left; reflexivity | right; right; exact Hin].
      * intros x [<- | [<- | Hx]].
        -- apply Hmax. left. reflexivity.
        -- apply date_leb_trans with d; [exact Hyd | apply Hmax; left; reflexivity].
        -- apply Hmax. right. exact Hx.
    + destruct (IH y) as [Hin Hmax]. split.
      * right. exact Hin.
      * intros x [<- | [<- | Hx]].
        -- apply date_leb_trans with y; [| apply Hmax; left; reflexivity].
           apply date_leb_total. exact Hyd.
        -- apply Hmax. left. reflexivity.
        -- apply Hmax. right. exact Hx.
Qed.

(** X7.  The trading period of the overall statistics spans every entry:
    with at least one entry, the start and end dates are dates of entries,
    no entry is dated before the start and none after the end; with no entry
    both are missing. *)
Theorem trading_period_spans_entries (es : list Entry) :
  (es <> [] ->
   exists d1 d2,
     Overall.start_date (calculate_overall_stats es) = Some d1
     /\ Overall.end_date (calculate_overall_stats es) = Some d2
     /\ In d1 (map date es) /\ In d2 (map date es)
     /\ forall e, In e es ->
                  date_leb d1 (date e) = true /\ date_leb (date e) d2 = true)
  /\ (es = [] ->
      Overall.start_date (calculate_overall_stats es) = None
      /\ Overall.end_date (calculate_overall_stats es) = None).
Proof.
  split.
  - intros Hne. destruct es as [| e0 es]; [contradiction |].
    cbn [calculate_overall_stats Overall.start_date Overall.end_date
         map date_min date_max].
    destruct (fold_date_min (map date es) (date e0)) as [Hin1 Hmin].
    destruct (fold_date_max (map date es) (date e0)) as [Hin2 Hmax].
    eexists. eexists.
    split; [reflexivity |]. split; [reflexivity |].
    split; [exact Hin1 |]. split; [exact Hin2 |].
    intros e He.
    assert (Hd : In (date e) (date e0 :: map date es)).
    { change (date e0 :: map date es) with (map date (e0 :: es)).
      apply in_map. exact He. }
    split; [apply Hmin | apply Hmax]; exact Hd.
  - intros ->. split; reflexivity.
Qed.

(** ** Long and short splits *)






Lemma with_side_unknown (s : side) (data : list Entry) :
  s <> Unknown ->
  (forall e, In e data -> trade_type e = Unknown) ->
  with_side s data = [].
Proof.
  intros Hs Hall. unfold with_side. induction data as [| e data IH]; [reflexivity |].
  cbn [filter]. rewrite (Hall e (or_introl eq_refl)).
  destruct s; [| | contradiction]; cbn [side_eqb];
    apply IH; intros x Hx; apply Hall; right; exact Hx.
Qed.

(** X9.  When the table has no trade-type column, the long and short
    figures are all zero, in the overall statistics and in every row of the
    cycle frame: no trade is counted on either side. *)
Theorem no_type_column_gives_zero_sides
    (to_datetime : cell -> option (option Timestamp)) (df : DataFrame)
    (es : list Entry) :
  process_trades to_datetime df = Ok es ->
  find_type_col (columns df) = None ->
  (Overall.long_trades (calculate_overall_stats es) = 0
   /\ Overall.short_trades (calculate_overall_stats es) = 0
   /\ Overall.long_wins (calculate_overall_stats es) = 0
   /\ Overall.short_wins (calculate_overall_stats es) = 0
   /\ Overall.long_wr (calculate_overall_stats es) = 0%Q
   /\ Overall.short_wr (calculate_overall_stats es) = 0%Q
   /\ Overall.long_pnl (calculate_overall_stats es) = 0%Q
   /\ Overall.short_pnl (calculate_overall_stats es) = 0%Q)
  /\ forall row,
       In row (calculate_cycle_stats es) ->
       Cycle.long_trades row = 0 /\ Cycle.short_trades row = 0
       /\ Cycle.long_wr row = 0%Q /\ Cycle.short_wr row = 0%Q
       /\ Cycle.long_pnl row = 0%Q /\ Cycle.short_pnl row = 0%Q.
Proof.
  intros Hok Hnone.
  assert (Hunknown : forall e, In e es -> trade_type e = Unknown).
  { intros e He.
    destruct (process_trades_entry_fields _ _ _ _ Hok He)
      as (pc & t & _ & _ & _ & _ & Hside).
    rewrite Hnone in Hside. exact Hside. }
  split.
  - cbn [calculate_overall_stats Overall.long_trades Overall.short_trades
         Overall.long_wins Overall.short_wins Overall.long_wr Overall.short_wr
         Overall.long_pnl Overall.short_pnl].
    rewrite (with_side_unknown Long es) by (discriminate || exact Hunknown).
    rewrite (with_side_unknown Short es) by (discriminate || exact Hunknown).
    repeat split; reflexivity.
  - intros row Hin. apply in_calculate_cycle_stats in Hin.
    destruct Hin as [c [_ Hrow]]. unfold cycle_row in Hrow.
    destruct (len _ =? 0); [discriminate |].
    injection Hrow as <-.
    cbn [Cycle.long_trades Cycle.short_trades Cycle.long_wr Cycle.short_wr
         Cycle.long_pnl Cycle.short_pnl].
    assert (Hcyc : forall e, In e (filter (fun e => cycle_num e =? c) es) ->
                             trade_type e = Unknown).
    { intros e He. apply filter_In in He. apply Hunknown. tauto. }
    rewrite (with_side_unknown Long _) by (discriminate || exact Hcyc).
    rewrite (with_side_unknown Short _) by (discriminate || exact Hcyc).
    repeat split; reflexivity.
Qed.

(** ** Accounting for the rows of the table *)

(** The converted timestamp of a row: missing when it converts to NaT. *)
Definition row_timestamp (to_datetime : cell -> option (option Timestamp))
    (df : DataFrame) (row : list cell) : option Timestamp :=
  match find_datetime_col (columns df) with
  | Some datetime_col =>
      match to_datetime (row_get (columns df) datetime_col row) with
      | Some t => t
      | None => None
      end
  | None => None
  end.

(** The row has no timestamp or lies outside cycles 0-6. *)
Definition outside_session (to_datetime : cell -> option (option Timestamp))
    (df : DataFrame) (row : list cell) : bool :=
  negb (in_cycle_range (row, row_timestamp to_datetime df row)).

Lemma mapM_stamp_rows_map to_datetime (df : DataFrame) datetime_col stamped :
  find_datetime_col (columns df) = Some datetime_col ->
  mapM (stamp_row to_datetime (columns df) datetime_col) (rows df) = Ok stamped ->
  stamped = map (fun row => (row, row_timestamp to_datetime df row)) (rows df).
Proof.
  intros Hdt. unfold row_timestamp. rewrite Hdt.
  generalize (rows df). intros l. revert stamped.
  induction l as [| row l IH]; cbn [mapM map]; intros stamped H.
  - injection H as <-. reflexivity.
  - apply bind_ok_inv in H. destruct H as [r [Hr H]].
    apply bind_ok_inv in H. destruct H as [rs [Hrs H]].
    injection H as <-. rewrite <- (IH rs Hrs).
    apply stamp_row_ok_inv in Hr. destruct Hr as [t [Ht ->]].
    rewrite Ht. reflexivity.
Qed.

Lemma filter_map_fst {A B : Type} (p : A -> bool) (g : A -> B) (l : list A) :
  filter (fun r => p (fst r)) (map (fun a => (a, g a)) l)
  = map (fun a => (a, g a)) (filter p l).
Proof.
  induction l as [| a l IH]; [reflexivity |].
  cbn [map filter fst]. destruct (p a); cbn [map]; rewrite IH; reflexivity.
Qed.

Lemma keep_in_range_count {A : Type} (g : A -> list cell * option Timestamp)
    (l : list A) :
  List.length (filter_map keep_in_range (map g l))
  = List.length (filter (fun a => in_cycle_range (g a)) l).
Proof.
  induction l as [| a l IH]; [reflexivity |].
  cbn [map filter_map filter]. unfold keep_in_range at 1.
  destruct (in_cycle_range (g a)) eqn:Hin.
  - unfold in_cycle_range in Hin. destruct (snd (g a)) as [t |] eqn:Hs.
    + cbn [List.length]. rewrite IH. reflexivity.
    + discriminate.
  - destruct (snd (g a)); exact IH.
Qed.

Lemma filter_negb_length {A : Type} (p : A -> bool) (l : list A) :
  (List.length (filter p l) + List.length (filter (fun a => negb (p a)) l)
   = List.length l)%nat.
Proof.
  induction l as [| a l IH]; [reflexivity |].
  cbn [filter]. destruct (p a); cbn [negb List.length]; lia.
Qed.

Lemma mapM_length {A B : Type} (f : A -> result B) (l : list A) (bs : list B) :
  mapM f l = Ok bs -> List.length bs = List.length l.
Proof.
  intros H. apply mapM_ok_inv in H.
  induction H as [| a b l bs _ _ IH]; [reflexivity |].
  cbn [List.length]. rewrite IH. reflexivity.
Qed.

Lemma entry_rows_as_map to_datetime (df : DataFrame) :
  entry_rows (columns df) (find_type_col (columns df))
    (map (fun row => (row, row_timestamp to_datetime df row)) (rows df))
  = map (fun row => (row, row_timestamp to_datetime df row)) (entry_filter df).
Proof.
  unfold entry_rows, entry_filter.
  destruct (find_type_col (columns df)) as [tc |]; [| reflexivity].
  apply (filter_map_fst (fun row => contains_entry (row_get (columns df) tc row))).
Qed.

(** X10.  Every row that passes the entry filter is either normalised or
    dropped for its time: the number of entries returned is the number of
    entry rows less those without a timestamp or outside cycles 0-6; and
    there is at least one entry row. *)
Theorem entries_and_dropped_rows_add_up
    (to_datetime : cell -> option (option Timestamp)) (df : DataFrame)
    (es : list Entry) :
  process_trades to_datetime df = Ok es ->
  len es + len (filter (outside_session to_datetime df) (entry_filter df))
  = len (entry_filter df)
  /\ 1 <= len (entry_filter df) <= len (rows df).
Proof.
  intros Hok. apply process_trades_ok_inv in Hok.
  destruct Hok as (dc & pc & stamped & Hdc & _ & Hst & Hne & _ & Hnorm).
  rewrite (mapM_stamp_rows_map _ _ _ _ Hdc Hst) in Hne, Hnorm.
  rewrite entry_rows_as_map in Hne, Hnorm.
  apply mapM_length in Hnorm. rewrite keep_in_range_count in Hnorm.
  pose proof (filter_negb_length
                (fun row => in_cycle_range (row, row_timestamp to_datetime df row))
                (entry_filter df)) as Hsplit.
  unfold len, outside_session. split; [lia |].
  split.
  - destruct (entry_filter df); [contradiction | cbn [List.length]; lia].
  - apply inj_le. unfold entry_filter.
    destruct (find_type_col (columns df)); [apply filter_length_le | lia].
Qed.

(** ** When a report is produced *)

Lemma cycle_frame_nonempty (es : list Entry) :
  es <> [] -> (forall e, In e es -> 0 <= cycle_num e <= 6) ->
  calculate_cycle_stats es <> [].
Proof.
  intros Hne Hrange. destruct es as [| e es]; [contradiction |].
  assert (He : In e (e :: es)) by (left; reflexivity).
  destruct (proj2 (cycle_row_some_iff (e :: es) (cycle_num e))) as [row Hrow];
    [eauto |].
  assert (Hin : In row (calculate_cycle_stats (e :: es))).
  { apply in_calculate_cycle_stats. exists (cycle_num e). auto. }
  intros Hnil. rewrite Hnil in Hin. destruct Hin.
Qed.

Lemma generate_report_ok str_number now cycle_stats overall_stats props :
  cycle_stats <> [] ->
  exists report,
    generate_report str_number now cycle_stats overall_stats props = Ok report.
Proof.
  intros Hne. unfold generate_report.
  destruct cycle_stats as [| first rest]; [contradiction |].
  eexists. reflexivity.
Qed.

(** X11.  The pipeline of [process_file] yields a report exactly when
    [process_trades] succeeds with at least one entry: an error of
    [process_trades] is passed on unchanged, no entry at all gives the
    KeyError of the renderer, and any non-empty result is rendered. *)
Theorem report_produced_iff_some_entry
    (str_number : Q -> string) (to_datetime : cell -> option (option Timestamp))
    (now : Timestamp) (df : DataFrame) (props : props_dict) :
  ((exists report, run_pipeline str_number to_datetime now df props = Ok report)
   <-> exists es, process_trades to_datetime df = Ok es /\ es <> [])
  /\ (process_trades to_datetime df = Ok [] ->
      run_pipeline str_number to_datetime now df props = Raise (PyKeyError "win_rate"))
  /\ (forall e, process_trades to_datetime df = Raise e ->
                run_pipeline str_number to_datetime now df props = Raise e).
Proof.
  unfold run_pipeline. split; [| split].
  - destruct (process_trades to_datetime df) as [es | e] eqn:Hok; cbn [bind].
    + split.
      * intros [report Hrep]. exists es. split; [reflexivity |].
        intros ->. discriminate.
      * intros [es' [Heq Hne]]. injection Heq as <-.
        apply generate_report_ok. apply cycle_frame_nonempty; [exact Hne |].
        intros x Hx. exact (proj2 (entry_cycle_num _ _ _ _ Hok Hx)).
    + split; [intros [r H]; discriminate | intros [es [H _]]; discriminate].
  - intros ->. reflexivity.
  - intros e ->. reflexivity.
Qed.

(** ** The properties above at concrete tables *)

(** The entries of a result, none for an error. *)
Definition entries_of (r : result (list Entry)) : list Entry :=
  match r with
  | Ok es => es
  | Raise _ => []
  end.

(** A table without a trade-type column. *)
Definition no_type_df : DataFrame :=
  mkDataFrame ["Date"; "P&L"]%string
    [[CTime (at_time 7 30); CNum 40];
     [CTime (at_time 9 45); CNum 0];
     [CTime (at_time 17 0); CNum 15];
     [CTime (at_time 15 10); CNull]].

Definition no_type_entries : list Entry :=
  entries_of (process_trades to_datetime_cells no_type_df).

Lemma no_type_processed :
  process_trades to_datetime_cells no_type_df = Ok no_type_entries.
Proof. vm_compute. reflexivity. Qed.

Definition first_entry (es : list Entry) : Entry :=
  hd (entry_at 0 0 0 Unknown) es.

(** X2 at the first entry of [two_of_three_df], of type "Entry long". *)
Lemma side_of_every_entry_witness :
  exists s,
    row_get (columns two_of_three_df) "Type" (source_row (first_entry two_of_three))
    = CStr s
    /\ PyStr.contains "entry" (PyStr.lower s) = true
    /\ trade_type (first_entry two_of_three)
       = (if PyStr.contains "long" (PyStr.lower s) then Long else Short).
Proof.
  apply (proj1 (side_of_every_entry to_datetime_cells two_of_three_df two_of_three
                  (first_entry two_of_three) two_of_three_processed
                  (or_introl eq_refl))).
  reflexivity.
Defined.

(** X3 at the second entry of [no_type_df], whose P&L is zero: a loss. *)
Lemma win_flag_is_strictly_positive_pnl_witness :
  is_win (nth 1 no_type_entries (entry_at 0 0 0 Unknown)) = false.
Proof.
  destruct (win_flag_is_strictly_positive_pnl to_datetime_cells no_type_df
              no_type_entries (nth 1 no_type_entries (entry_at 0 0 0 Unknown))
              no_type_processed) as (_ & Hzero & _).
  - right. left. reflexivity.
  - apply (Hzero 0%Q); [reflexivity | apply Qle_refl].
Defined.



(** X9 at [no_type_df]: no trade on either side. *)
Lemma no_type_column_gives_zero_sides_witness :
  Overall.long_trades (calculate_overall_stats no_type_entries) = 0
  /\ Overall.short_trades (calculate_overall_stats no_type_entries) = 0.
Proof.
  destruct (no_type_column_gives_zero_sides to_datetime_cells no_type_df
              no_type_entries no_type_processed eq_refl)
    as [(Hlong & Hshort & _) _].
  split; [exact Hlong | exact Hshort].
Defined.

(** X10 at [no_type_df]: four rows, three entries, one row at 17:00. *)
Lemma entries_and_dropped_rows_add_up_witness :
  len no_type_entries
  + len (filter (outside_session to_datetime_cells no_type_df)
           (entry_filter no_type_df))
  = 4.
Proof.
  rewrite (proj1 (entries_and_dropped_rows_add_up to_datetime_cells no_type_df
                    no_type_entries no_type_processed)).
  reflexivity.
Defined.

(** ** Highlights and extremes of the report *)







(** ** Currency formatting near zero *)





(** ** Choice of the trades sheet *)

Definition is_trade_list_name (name : string) : bool :=
  PyStr.contains "trade" (PyStr.lower name) && PyStr.contains "list" (PyStr.lower name).

Definition is_trade_name (name : string) : bool :=
  PyStr.contains "trade" (PyStr.lower name).

Definition width (df : DataFrame) : nat := List.length (columns df).

Lemma find_app_or {A : Type} (p : A -> bool) (l1 l2 : list A) :
  find p (l1 ++ l2) = match find p l1 with
                      | Some a => Some a
                      | None => find p l2
                      end.
Proof.
  induction l1 as [| a l1 IH]; [reflexivity |].
  cbn [app find]. destruct (p a); [reflexivity | exact IH].
Qed.

Lemma select_trades_sheet_both (names : list string) (acc : option string)
    (name : string) :
  first_match is_trade_list_name names name ->
  select_trades_sheet names acc = Some name.
Proof.
  intros (before & after & -> & Hname & Hbefore). revert acc.
  induction before as [| b before IH]; intros acc; cbn [app select_trades_sheet].
  - unfold is_trade_list_name in Hname. rewrite Hname. reflexivity.
  - pose proof (Hbefore b (or_introl eq_refl)) as Hb.
    unfold is_trade_list_name in Hb. rewrite Hb.
    assert (Hrest : forall c, In c before -> is_trade_list_name c = false)
      by (intros c Hc; apply Hbefore; right; exact Hc).
    destruct (PyStr.contains "trade" (PyStr.lower b)); apply IH; exact Hrest.
Qed.

Lemma select_trades_sheet_last (names : list string) (acc : option string) :
  no_match is_trade_list_name names ->
  select_trades_sheet names acc
  = match find is_trade_name (rev names) with
    | Some name => Some name
    | None => acc
    end.
Proof.
  revert acc. induction names as [| b names IH]; intros acc Hnone.
  - reflexivity.
  - cbn [select_trades_sheet rev].
    pose proof (Hnone b (or_introl eq_refl)) as Hb.
    unfold is_trade_list_name in Hb. rewrite Hb.
    assert (Hrest : no_match is_trade_list_name names)
      by (intros c Hc; apply Hnone; right; exact Hc).
    rewrite find_app_or. cbn [find]. unfold is_trade_name at 2.
    destruct (PyStr.contains "trade" (PyStr.lower b)).
    + rewrite (IH (Some b) Hrest).
      destruct (find is_trade_name (rev names)); reflexivity.
    + rewrite (IH acc Hrest).
      destruct (find is_trade_name (rev names)); reflexivity.
Qed.

Lemma read_sheet_named (all_sheets : list (string * DataFrame)) (name : string) :
  In name (map fst all_sheets) ->
  exists df, read_sheet all_sheets name = Ok df /\ In (name, df) all_sheets.
Proof.
  unfold read_sheet. induction all_sheets as [| [n d] rest IH]; cbn [map fst In find].
  - intros [].
  - destruct (String.eqb n name) eqn:Heq.
    + intros _. apply String.eqb_eq in Heq. subst n.
      exists d. split; [reflexivity | left; reflexivity].
    + intros [Hn | Hin].
      * subst n. rewrite String.eqb_refl in Heq. discriminate.
      * destruct (IH Hin) as [df [Hread Hdf]].
        exists df. split; [exact Hread | right; exact Hdf].
Qed.

Lemma first_match_in (p : string -> bool) (l : list string) (x : string) :
  first_match p l x -> In x l.
Proof.
  intros (before & after & -> & _). apply in_or_app. right. left. reflexivity.
Qed.

(** The first sheet of maximal width, with the sheets already passed. *)
Lemma widest_sheet_spec (sheets passed_low passed_rest : list DataFrame)
    (best : DataFrame) :
  (forall s, In s passed_low -> (width s < width best)%nat) ->
  (forall s, In s passed_rest -> (width s <= width best)%nat) ->
  exists before after,
    passed_low ++ best :: passed_rest ++ sheets
    = before ++ widest_sheet best sheets :: after
    /\ (forall s, In s before -> (width s < width (widest_sheet best sheets))%nat)
    /\ (forall s, In s after -> (width s <= width (widest_sheet best sheets))%nat).
Proof.
  revert passed_low passed_rest best.
  induction sheets as [| s sheets IH]; intros passed_low passed_rest best Hlow Hrest.
  - exists passed_low, passed_rest. cbn [widest_sheet].
    rewrite app_nil_r. auto.
  - cbn [widest_sheet]. fold (width best). fold (width s).
    destruct (width best <? width s)%nat eqn:Hlt.
    + apply Nat.ltb_lt in Hlt.
      destruct (IH (passed_low ++ best :: passed_rest) [] s) as (before & after & Heq & H).
      * intros x Hx. apply in_app_or in Hx.
        destruct Hx as [Hx | [<- | Hx]].
        -- pose proof (Hlow x Hx). lia.
        -- exact Hlt.
        -- pose proof (Hrest x Hx). lia.
      * intros x [].
      * exists before, after. split; [| exact H].
        rewrite <- Heq. cbn [app]. rewrite <- app_assoc. reflexivity.
    + apply Nat.ltb_ge in Hlt.
      destruct (IH passed_low (passed_rest ++ [s]) best) as (before & after & Heq & H).
      * exact Hlow.
      * intros x Hx. apply in_app_or in Hx.
        destruct Hx as [Hx | [<- | []]]; [apply Hrest; exact Hx | exact Hlt].
      * exists before, after. split; [| exact H].
        rewrite <- Heq. rewrite <- app_assoc. reflexivity.
Qed.

(** X15.  For a workbook ([.xlsx] or [.xls] in any letter case):
    [load_data] returns the first sheet, in workbook order, whose name
    contains both "trade" and "list"; with no such sheet, the last sheet
    whose name contains "trade"; with no such sheet either, the first of the
    sheets with the most columns.  The metadata is that of [load_props] in
    each case. *)
Theorem trades_sheet_choice (ext : string) (all_sheets : list (string * DataFrame)) :
  String.eqb (PyStr.lower ext) ".xlsx" || String.eqb (PyStr.lower ext) ".xls" = true ->
  (forall name,
      first_match is_trade_list_name (map fst all_sheets) name ->
      exists df,
        load_data ext (Workbook all_sheets) = Ok (df, load_props all_sheets)
        /\ In (name, df) all_sheets)
  /\ (no_match is_trade_list_name (map fst all_sheets) ->
      forall name,
        first_match is_trade_name (rev (map fst all_sheets)) name ->
        exists df,
          load_data ext (Workbook all_sheets) = Ok (df, load_props all_sheets)
          /\ In (name, df) all_sheets)
  /\ (no_match is_trade_name (map fst all_sheets) ->
      all_sheets <> [] ->
      exists df before after,
        load_data ext (Workbook all_sheets) = Ok (df, load_props all_sheets)
        /\ map snd all_sheets = before ++ df :: after
        /\ (forall s, In s before -> (width s < width df)%nat)
        /\ (forall s, In s after -> (width s <= width df)%nat)).
Proof.
  intros Hext. unfold load_data. rewrite Hext.
  split; [| split].
  - intros name Hfirst.
    rewrite (select_trades_sheet_both _ None name Hfirst).
    destruct (read_sheet_named all_sheets name (first_match_in _ _ _ Hfirst))
      as [df [Hread Hin]].
    exists df. rewrite Hread. split; [reflexivity | exact Hin].
  - intros Hnone name Hlast.
    rewrite (select_trades_sheet_last _ None Hnone).
    apply find_some_first_match in Hlast. rewrite Hlast.
    assert (Hname : In name (map fst all_sheets)).
    { apply in_rev. apply (find_some _ _ Hlast). }
    destruct (read_sheet_named all_sheets name Hname) as [df [Hread Hin]].
    exists df. rewrite Hread. split; [reflexivity | exact Hin].
  - intros Hnone Hne.
    assert (Hnone' : no_match is_trade_list_name (map fst all_sheets)).
    { intros c Hc. unfold is_trade_list_name.
      pose proof (Hnone c Hc) as H. unfold is_trade_name in H. rewrite H. reflexivity. }
    rewrite (select_trades_sheet_last _ None Hnone').
    assert (Hfind : find is_trade_name (rev (map fst all_sheets)) = None).
    { apply find_none_no_match. intros c Hc. apply Hnone. apply in_rev. exact Hc. }
    rewrite Hfind.
    destruct (map snd all_sheets) as [| s sheets] eqn:Hsheets.
    + destruct all_sheets; [contradiction | discriminate].
    + destruct (widest_sheet_spec sheets [] [] s) as (before & after & Heq & Hb & Ha).
      * intros x [].
      * intros x [].
      * exists (widest_sheet s sheets), before, after.
        split; [reflexivity |]. split; [exact Heq |]. split; assumption.
Qed.

Definition summary_sheet : DataFrame := mkDataFrame ["Metric"; "Value"]%string [].

(** X15 at a workbook with the sheets "Trades", "List of trades" and
    "Summary": the second is chosen. *)
Lemma trades_sheet_choice_witness :
  exists df,
    load_data ".XLSX"
      (Workbook [("Trades", props_sheet_lower);
                 ("List of trades", trades_sheet_example);
                 ("Summary", summary_sheet)]%string)
    = Ok (df, [])
    /\ In ("List of trades"%string, df)
          [("Trades", props_sheet_lower);
           ("List of trades", trades_sheet_example);
           ("Summary", summary_sheet)]%string.
Proof.
  apply (proj1 (trades_sheet_choice ".XLSX"
                  [("Trades", props_sheet_lower);
                   ("List of trades", trades_sheet_example);
                   ("Summary", summary_sheet)]%string eq_refl)).
  exists ["Trades"]%string, ["Summary"]%string.
  split; [reflexivity |]. split; [reflexivity |].
  intros c [<- | []]. reflexivity.
Defined.


(** * The file front end *)

(** ** Paths ([os.path] on POSIX) *)

Module OsPath.

(** [c in s] for a character *)
Fixpoint has_char (c : ascii) (s : string) : bool :=
  match s with
  | EmptyString => false
  | String a s' => Ascii.eqb a c || has_char c s'
  end.

(** [(s[:i], s[i:])] for [i = s.rfind(c)], when [c] occurs in [s] *)
Fixpoint split_at_last (c : ascii) (s : string) : option (string * string) :=
  match s with
  | EmptyString => None
  | String a s' =>
      match split_at_last c s' with
      | Some (before, rest) => Some (String a before, rest)
      | None => if Ascii.eqb a c then Some (EmptyString, s) else None
      end
  end.

Fixpoint all_dots (s : string) : bool :=
  match s with
  | EmptyString => true
  | String a s' => Ascii.eqb a "." && all_dots s'
  end.

(** [os.path.basename(p)]: what follows the last slash *)
Definition basename (p : string) : string :=
  match split_at_last "/" p with
  | Some (_, String _ name) => name
  | _ => p
  end.

(** [os.path.splitext(p)]: the path is split at its last dot when that dot
    comes after the last slash and some character between the two is not a
    dot; otherwise the extension is empty. *)
Definition splitext (p : string) : string * string :=
  match split_at_last "." p with
  | None => (p, EmptyString)
  | Some (root, ext) =>
      if has_char "/" ext then (p, EmptyString)
      else if all_dots (basename root) then (p, EmptyString)
      else (root, ext)
  end.

Definition ends_with_slash (s : string) : bool :=
  match split_at_last "/" s with
  | Some (_, String _ EmptyString) => true
  | _ => false
  end.

(** [os.path.join(a, b)] *)
Definition join (a b : string) : string :=
  if prefix "/" b then b
  else if String.eqb a "" || ends_with_slash a then a ++ b
  else a ++ "/" ++ b.

End OsPath.

Definition SUPPORTED_EXTENSIONS : list string := [".xlsx"; ".xls"; ".csv"]%string.

(** [os.path.splitext(filepath)[1].lower() in SUPPORTED_EXTENSIONS] *)
Definition supported (filepath : string) : bool :=
  existsb (String.eqb (PyStr.lower (snd (OsPath.splitext filepath))))
          SUPPORTED_EXTENSIONS.

(** ** Report files *)

(** The report files written so far, the latest first. *)
Definition files : Type := list (string * string).

(** [open(path, 'w').write(content)]: a file of that name is replaced. *)
Definition write_file (path content : string) (fs : files) : files :=
  (path, content) :: fs.

Definition read_back (path : string) (fs : files) : option string :=
  option_map snd (find (fun f => String.eqb (fst f) path) fs).

Section ProcessFile.

Variable str_number : Q -> string.
Variable to_datetime : cell -> option (option Timestamp).

(** What pandas reads at a path. *)
Variable read_file : string -> file_data.

(** [load_data(filepath)] *)
Definition load_data_at (filepath : string) : result (DataFrame * props_dict) :=
  load_data (snd (OsPath.splitext filepath)) (read_file filepath).

(** The body of the [try] of [process_file] up to the report text. *)
Definition report_of_file (now : Timestamp) (filepath : string) : result string :=
  loaded <- load_data_at filepath ;;
  run_pipeline str_number to_datetime now (fst loaded) (snd loaded).

Definition output_file (filepath output_dir : string) : string :=
  let filename := OsPath.basename filepath in
  let base_name := fst (OsPath.splitext filename) in
  OsPath.join output_dir (base_name ++ "_cycle_report.md").

(** [process_file(filepath, output_dir)], run when the clock reads [now],
    on the report files [fs]: the returned flag and the files afterwards.
    Any exception is caught and gives [False]; the report is written only
    once it is complete, the write itself is taken to succeed, and nothing
    after the write raises. *)
Definition process_file (now : Timestamp) (filepath output_dir : string) (fs : files)
  : bool * files :=
  match report_of_file now filepath with
  | Ok report => (true, write_file (output_file filepath output_dir) report fs)
  | Raise _ => (false, fs)
  end.

End ProcessFile.


(** ** Properties of the path functions *)

Lemma has_char_app (c : ascii) (s1 s2 : string) :
  OsPath.has_char c (s1 ++ s2)%string = OsPath.has_char c s1 || OsPath.has_char c s2.
Proof.
  induction s1 as [| a s1 IH]; [reflexivity |].
  cbn [String.append OsPath.has_char]. rewrite IH. apply orb_assoc.
Qed.

Lemma split_at_last_none (c : ascii) (s : string) :
  OsPath.split_at_last c s = None <-> OsPath.has_char c s = false.
Proof.
  induction s as [| a s IH]; cbn [OsPath.split_at_last OsPath.has_char].
  - tauto.
  - destruct (OsPath.split_at_last c s) as [[b r] |].
    + split; [discriminate |]. intros H. apply orb_false_iff in H.
      destruct H as [_ H]. apply IH in H. discriminate.
    + destruct (Ascii.eqb a c); cbn [orb].
      * split; discriminate.
      * split; [intros _; apply IH; reflexivity | reflexivity].
Qed.

Lemma split_at_last_some (c : ascii) (s before rest : string) :
  OsPath.split_at_last c s = Some (before, rest) ->
  s = (before ++ rest)%string
  /\ exists tail, rest = String c tail /\ OsPath.has_char c tail = false.
Proof.
  revert before rest.
  induction s as [| a s IH]; cbn [OsPath.split_at_last]; intros before rest H.
  - discriminate.
  - destruct (OsPath.split_at_last c s) as [[b r] |] eqn:Hs.
    + injection H as <- <-. destruct (IH b r eq_refl) as [Heq Htail].
      split; [cbn [String.append]; rewrite Heq; reflexivity | exact Htail].
    + destruct (Ascii.eqb a c) eqn:Hac; [| discriminate].
      injection H as <- <-. apply Ascii.eqb_eq in Hac. subst a.
      split; [reflexivity |]. exists s. split; [reflexivity |].
      apply split_at_last_none. exact Hs.
Qed.

Lemma split_at_last_app (c : ascii) (before tail : string) :
  OsPath.has_char c tail = false ->
  OsPath.split_at_last c (before ++ String c tail)%string = Some (before, String c tail).
Proof.
  intros Htail. induction before as [| a before IH]; cbn [String.append].
  - cbn [OsPath.split_at_last].
    rewrite (proj2 (split_at_last_none c tail) Htail), Ascii.eqb_refl. reflexivity.
  - cbn [OsPath.split_at_last]. rewrite IH. reflexivity.
Qed.

Lemma basename_plain (name : string) :
  OsPath.has_char "/" name = false -> OsPath.basename name = name.
Proof.
  intros H. unfold OsPath.basename.
  rewrite (proj2 (split_at_last_none "/" name) H). reflexivity.
Qed.

Lemma basename_after_slash (dir name : string) :
  OsPath.has_char "/" name = false ->
  OsPath.basename (dir ++ String "/" name)%string = name.
Proof.
  intros H. unfold OsPath.basename. rewrite (split_at_last_app "/" dir name H).
  reflexivity.
Qed.

(** The two parts of [splitext] make up the path. *)
Lemma splitext_parts (p : string) :
  (fst (OsPath.splitext p) ++ snd (OsPath.splitext p))%string = p.
Proof.
  unfold OsPath.splitext.
  assert (Hnil : forall s : string, (s ++ "")%string = s).
  { induction s as [| a s IH]; [reflexivity |].
    cbn [String.append]. rewrite IH. reflexivity. }
  destruct (OsPath.split_at_last "." p) as [[root ext] |] eqn:Hs.
  - apply split_at_last_some in Hs. destruct Hs as [Heq _].
    destruct (OsPath.has_char "/" ext); [apply Hnil |].
    destruct (OsPath.all_dots (OsPath.basename root)); [apply Hnil |].
    cbn [fst snd]. symmetry. exact Heq.
  - apply Hnil.
Qed.

(** A path that ends in a dot and an extension without dot or slash, after
    a name that is not made of dots alone, is split before that dot. *)
Lemma splitext_stem_ext (root ext : string) :
  OsPath.has_char "." ext = false ->
  OsPath.has_char "/" ext = false ->
  OsPath.all_dots (OsPath.basename root) = false ->
  OsPath.splitext (root ++ String "." ext)%string = (root, String "." ext).
Proof.
  intros Hdot Hslash Hname. unfold OsPath.splitext.
  rewrite (split_at_last_app "." root ext Hdot).
  assert (Hs : OsPath.has_char "/" (String "." ext) = false).
  { cbn [OsPath.has_char]. rewrite Hslash. reflexivity. }
  rewrite Hs, Hname. reflexivity.
Qed.

(** The extension is empty, or a dot followed by neither dot nor slash. *)
Lemma splitext_ext_shape (p : string) :
  snd (OsPath.splitext p) = ""%string
  \/ exists tail,
       snd (OsPath.splitext p) = String "." tail
       /\ OsPath.has_char "." tail = false
       /\ OsPath.has_char "/" tail = false.
Proof.
  unfold OsPath.splitext.
  destruct (OsPath.split_at_last "." p) as [[root ext] |] eqn:Hs; [| left; reflexivity].
  apply split_at_last_some in Hs. destruct Hs as [_ [tail [-> Htail]]].
  destruct (OsPath.has_char "/" (String "." tail)) eqn:Hslash; [left; reflexivity |].
  destruct (OsPath.all_dots (OsPath.basename root)); [left; reflexivity |].
  right. exists tail. cbn [snd]. split; [reflexivity |]. split; [exact Htail |].
  cbn [OsPath.has_char] in Hslash. apply orb_false_iff in Hslash. tauto.
Qed.

Example splitext_examples :
  OsPath.splitext "exports/run1.XLSX" = ("exports/run1", ".XLSX")%string
  /\ OsPath.splitext "a.tar.gz" = ("a.tar", ".gz")%string
  /\ OsPath.splitext "dir.d/notes" = ("dir.d/notes", "")%string
  /\ OsPath.splitext "dir/.hidden" = ("dir/.hidden", "")%string
  /\ OsPath.splitext "dir/..x" = ("dir/..x", "")%string
  /\ OsPath.basename "exports/run1.XLSX" = "run1.XLSX"%string
  /\ OsPath.basename "run1.csv" = "run1.csv"%string
  /\ OsPath.join "reports" "run1_cycle_report.md" = "reports/run1_cycle_report.md"%string
  /\ OsPath.join "reports/" "x.md" = "reports/x.md"%string
  /\ OsPath.join "" "x.md" = "x.md"%string.
Proof. repeat split; reflexivity. Qed.


(** ** Outcome of [process_file] *)

Lemma run_pipeline_ok_iff str_number to_datetime now df props :
  (exists report, run_pipeline str_number to_datetime now df props = Ok report)
  <-> exists es, process_trades to_datetime df = Ok es /\ es <> [].
Proof.
  unfold run_pipeline.
  destruct (process_trades to_datetime df) as [es | e] eqn:Hok; cbn [bind].
  - split.
    + intros [report Hrep]. exists es. split; [reflexivity |].
      intros ->. discriminate.
    + intros [es' [Heq Hne]]. injection Heq as <-.
      apply generate_report_ok. apply cycle_frame_nonempty; [exact Hne |].
      intros x Hx. exact (proj2 (entry_cycle_num _ _ _ _ Hok Hx)).
  - split; [intros [r H]; discriminate | intros [es [H _]]; discriminate].
Qed.

Lemma read_back_write (path content : string) (fs : files) :
  read_back path (write_file path content fs) = Some content
  /\ forall other, other <> path ->
       read_back other (write_file path content fs) = read_back other fs.
Proof.
  unfold read_back, write_file. cbn [find fst]. split.
  - rewrite String.eqb_refl. reflexivity.
  - intros other Hneq.
    destruct (String.eqb path other) eqn:Heq; [| reflexivity].
    apply String.eqb_eq in Heq. congruence.
Qed.

(** X16.  [process_file] either writes one complete report or nothing:
    it returns True exactly when the file loads and [process_trades] yields
    at least one entry, and then the report is the content of the output
    file and every other report file is as before; when it returns False no
    file is written or changed. *)
Theorem process_file_writes_report_or_nothing
    (str_number : Q -> string) (to_datetime : cell -> option (option Timestamp))
    (read_file : string -> file_data) (now : Timestamp)
    (filepath output_dir : string) (fs fs' : files) (flag : bool) :
  process_file str_number to_datetime read_file now filepath output_dir fs
  = (flag, fs') ->
  (flag = true
   <-> exists df props es,
         load_data_at read_file filepath = Ok (df, props)
         /\ process_trades to_datetime df = Ok es /\ es <> [])
  /\ (flag = false -> fs' = fs)
  /\ (flag = true ->
      exists report,
        report_of_file str_number to_datetime read_file now filepath = Ok report
        /\ read_back (output_file filepath output_dir) fs' = Some report
        /\ forall other, other <> output_file filepath output_dir ->
             read_back other fs' = read_back other fs).
Proof.
  unfold process_file. intros Hrun.
  assert (Hiff : (exists report,
                     report_of_file str_number to_datetime read_file now filepath
                     = Ok report)
                 <-> exists df props es,
                       load_data_at read_file filepath = Ok (df, props)
                       /\ process_trades to_datetime df = Ok es /\ es <> []).
  { unfold report_of_file.
    destruct (load_data_at read_file filepath) as [[df props] | e]; cbn [bind fst snd].
    - rewrite run_pipeline_ok_iff. split.
      + intros [es H]. exists df, props, es. split; [reflexivity | exact H].
      + intros (df' & props' & es & Heq & H). injection Heq as <- <-. eauto.
    - split; [intros [r H]; discriminate | intros (d & p & es & H & _); discriminate]. }
  destruct (report_of_file str_number to_datetime read_file now filepath)
    as [report | e] eqn:Hrep; injection Hrun as <- <-.
  - split; [| split].
    + split; [intros _; apply Hiff; eauto | reflexivity].
    + discriminate.
    + intros _. exists report. split; [reflexivity |].
      apply read_back_write.
  - split; [| split].
    + split; [discriminate |].
      intros H. apply Hiff in H. destruct H as [r H]. discriminate.
    + reflexivity.
    + discriminate.
Qed.

(** ** Name of the report file *)

Lemma string_app_assoc (a b c : string) :
  ((a ++ b) ++ c)%string = (a ++ (b ++ c))%string.
Proof.
  induction a as [| x a IH]; [reflexivity |].
  cbn [String.append]. rewrite IH. reflexivity.
Qed.

Lemma all_dots_nonempty (s : string) :
  OsPath.all_dots s = false -> exists a s', s = String a s'.
Proof. destruct s as [| a s']; [discriminate | eauto]. Qed.

Lemma basename_under (pre name : string) :
  pre = ""%string \/ (exists dir, pre = (dir ++ "/")%string) ->
  OsPath.has_char "/" name = false ->
  OsPath.basename (pre ++ name)%string = name.
Proof.
  intros [-> | [dir ->]] Hname.
  - apply basename_plain. exact Hname.
  - rewrite string_app_assoc. cbn [String.append].
    apply basename_after_slash. exact Hname.
Qed.

(** X17.  For an input file named [stem.ext] in any directory, where the
    stem has no slash and is not made of dots alone and the extension has
    neither dot nor slash: the extension that [load_data] dispatches on is
    [.ext], and the report goes to [output_dir/stem_cycle_report.md] (for an
    output directory that is not empty and does not end in a slash). *)
Theorem report_file_is_named_after_input
    (pre stem ext output_dir : string) :
  pre = ""%string \/ (exists dir, pre = (dir ++ "/")%string) ->
  OsPath.has_char "/" stem = false ->
  OsPath.all_dots stem = false ->
  OsPath.has_char "." ext = false ->
  OsPath.has_char "/" ext = false ->
  output_dir <> ""%string ->
  OsPath.ends_with_slash output_dir = false ->
  snd (OsPath.splitext (pre ++ stem ++ String "." ext)%string) = String "." ext
  /\ output_file (pre ++ stem ++ String "." ext)%string output_dir
     = (output_dir ++ "/" ++ stem ++ "_cycle_report.md")%string.
Proof.
  intros Hpre Hstem Hdots Hdot Hslash Hout Hend.
  split.
  - rewrite <- string_app_assoc.
    rewrite (splitext_stem_ext (pre ++ stem)%string ext Hdot Hslash).
    + reflexivity.
    + rewrite (basename_under pre stem Hpre Hstem). exact Hdots.
  - unfold output_file.
    assert (Hname : OsPath.has_char "/" (stem ++ String "." ext)%string = false).
    { rewrite has_char_app. rewrite Hstem. cbn [OsPath.has_char orb].
      rewrite Hslash. reflexivity. }
    rewrite (basename_under pre _ Hpre Hname).
    rewrite (splitext_stem_ext stem ext Hdot Hslash)
      by (rewrite (basename_plain stem Hstem); exact Hdots).
    cbn [fst]. unfold OsPath.join.
    destruct (all_dots_nonempty stem Hdots) as [a [s' ->]].
    cbn [OsPath.has_char] in Hstem. apply orb_false_iff in Hstem.
    destruct Hstem as [Ha _].
    assert (Hprefix : prefix "/" (String a s' ++ "_cycle_report.md")%string = false).
    { cbn [String.append prefix].
      destruct (ascii_dec "/" a) as [Heq | Hneq]; [| reflexivity].
      subst a. discriminate. }
    rewrite Hprefix, Hend.
    destruct (String.eqb output_dir "") eqn:Hempty.
    + apply String.eqb_eq in Hempty. contradiction.
    + reflexivity.
Qed.

(** X17 at [exports/run1.XLSX] with the output directory [reports]. *)
Lemma report_file_is_named_after_input_witness :
  snd (OsPath.splitext "exports/run1.XLSX") = ".XLSX"%string
  /\ output_file "exports/run1.XLSX" "reports" = "reports/run1_cycle_report.md"%string.
Proof.
  apply (report_file_is_named_after_input "exports/" "run1" "XLSX" "reports").
  - right. exists "exports"%string. reflexivity.
  - reflexivity.
  - reflexivity.
  - reflexivity.
  - reflexivity.
  - discriminate.
  - reflexivity.
Defined.


(** X16 at a delimited file without a P&L column: no report file. *)
Lemma process_file_writes_report_or_nothing_witness :
  snd (process_file str_number_int to_datetime_cells
         (fun _ => Delimited exits_without_pnl_df) (clock 9 5 0)
         "exports/run1.csv" "reports" [])
  = [].
Proof.
  apply (proj1 (proj2 (process_file_writes_report_or_nothing
                         str_number_int to_datetime_cells
                         (fun _ => Delimited exits_without_pnl_df) (clock 9 5 0)
                         "exports/run1.csv" "reports" [] _ _
                         (surjective_pairing _)))).
  vm_compute. reflexivity.
Defined.

(** ** The watcher *)

(** [x in s] and [s.add(x)] for the set of processed paths *)
Definition set_mem (x : string) (s : list string) : bool :=
  existsb (String.eqb x) s.

Definition set_add (x : string) (s : list string) : list string :=
  if set_mem x s then s else x :: s.

(** What the two [os.path.getsize] calls find. *)
Inductive size_probe : Type :=
| Unreadable      (* getsize raises *)
| StillWriting    (* the two sizes differ *)
| Stable.         (* the two sizes agree *)

(** One thing the watcher reacts to: a watchdog event, or a directory
    entry met by a polling scan. *)
Inductive sighting : Type :=
| Created (src_path : string) (is_directory : bool) (probe : size_probe)
| Modified (src_path : string) (is_directory : bool)
| Polled (watch_dir f : string) (isfile : bool) (probe : size_probe).

(** The path that a sighting is about. *)
Definition sighting_path (s : sighting) : string :=
  match s with
  | Created src_path _ _ => src_path
  | Modified src_path _ => src_path
  | Polled watch_dir f _ _ => OsPath.join watch_dir f
  end.

(** The state of a watcher: the set [processed_files] and the report
    files. *)
Definition watcher : Type := (list string * files)%type.

Section Watcher.

Variable str_number : Q -> string.
Variable to_datetime : cell -> option (option Timestamp).
Variable read_file : string -> file_data.
Variable output_dir : string.

(** [processed_files.add(filepath); process_file(filepath, output_dir)],
    with the path handed to [process_file] as the record of the call. *)
Definition take_file (now : Timestamp) (filepath : string) (w : watcher)
  : watcher * list string :=
  ((set_add filepath (fst w),
    snd (process_file str_number to_datetime read_file now filepath output_dir (snd w))),
   [filepath]).

(** [NewFileHandler.on_created]: a file still being written is taken
    after a longer wait; a file whose size cannot be read is left. *)
Definition on_created (now : Timestamp) (src_path : string) (is_directory : bool)
    (probe : size_probe) (w : watcher) : watcher * list string :=
  if is_directory then (w, [])
  else if negb (supported src_path) then (w, [])
  else if set_mem src_path (fst w) then (w, [])
  else match probe with
       | Unreadable => (w, [])
       | _ => take_file now src_path w
       end.

(** [NewFileHandler.on_modified] *)
Definition on_modified (now : Timestamp) (src_path : string) (is_directory : bool)
    (w : watcher) : watcher * list string :=
  if is_directory then (w, [])
  else if negb (supported src_path) then (w, [])
  else if set_mem src_path (fst w) then (w, [])
  else take_file now src_path w.

(** The body of the scanning loop of [watch_with_polling] for one entry
    [f] of the directory: a file still being written is left for the next
    scan. *)
Definition poll_entry (now : Timestamp) (watch_dir f : string) (isfile : bool)
    (probe : size_probe) (w : watcher) : watcher * list string :=
  let filepath := OsPath.join watch_dir f in
  if negb isfile then (w, [])
  else if negb (existsb (String.eqb (PyStr.lower (snd (OsPath.splitext f))))
                        SUPPORTED_EXTENSIONS) then (w, [])
  else if set_mem filepath (fst w) then (w, [])
  else match probe with
       | Stable => take_file now filepath w
       | _ => (w, [])
       end.

Definition react (now : Timestamp) (s : sighting) (w : watcher)
  : watcher * list string :=
  match s with
  | Created src_path is_directory probe => on_created now src_path is_directory probe w
  | Modified src_path is_directory => on_modified now src_path is_directory w
  | Polled watch_dir f isfile probe => poll_entry now watch_dir f isfile probe w
  end.

(** A run of the watcher over the sightings, each with the clock reading
    at its turn: the final state and the calls of [process_file] in order. *)
Fixpoint watch (sightings : list (Timestamp * sighting)) (w : watcher)
  : watcher * list string :=
  match sightings with
  | [] => (w, [])
  | (now, s) :: rest =>
      let (w1, calls1) := react now s w in
      let (w2, calls2) := watch rest w1 in
      (w2, calls1 ++ calls2)
  end.

(** The loop of [main] and of [watch_with_polling] that marks the files
    already in the directory: [listing] gives each name with [isfile]. *)
Fixpoint mark_existing (watch_dir : string) (listing : list (string * bool))
    (processed_files : list string) : list string :=
  match listing with
  | [] => processed_files
  | (f, isfile) :: rest =>
      let filepath := OsPath.join watch_dir f in
      if isfile
         && existsb (String.eqb (PyStr.lower (snd (OsPath.splitext f))))
                    SUPPORTED_EXTENSIONS
      then mark_existing watch_dir rest (set_add filepath processed_files)
      else mark_existing watch_dir rest processed_files
  end.

End Watcher.


(** ** Each file is processed once *)

(** The sighting is one the watcher acts on, if the file is new to it. *)
Definition eligible (s : sighting) : bool :=
  match s with
  | Created src_path is_directory probe =>
      negb is_directory && supported src_path
      && match probe with Unreadable => false | _ => true end
  | Modified src_path is_directory => negb is_directory && supported src_path
  | Polled watch_dir f isfile probe =>
      isfile
      && existsb (String.eqb (PyStr.lower (snd (OsPath.splitext f))))
                 SUPPORTED_EXTENSIONS
      && match probe with Stable => true | _ => false end
  end.

Lemma set_mem_eqb (x y : string) (s : list string) :
  String.eqb x y = true -> set_mem x s = set_mem y s.
Proof. intros H. apply String.eqb_eq in H. subst. reflexivity. Qed.

Lemma set_mem_add (x y : string) (s : list string) :
  set_mem x (set_add y s) = String.eqb x y || set_mem x s.
Proof.
  unfold set_add. destruct (set_mem y s) eqn:Hy.
  - destruct (String.eqb x y) eqn:Hxy; [| reflexivity].
    rewrite (set_mem_eqb x y s Hxy), Hy. reflexivity.
  - reflexivity.
Qed.

(** One sighting: nothing happens, or the file is new, eligible, marked
    and handed to [process_file]. *)
Lemma react_cases str_number to_datetime read_file output_dir now s w :
  (react str_number to_datetime read_file output_dir now s w = (w, [])
   /\ (eligible s = true -> set_mem (sighting_path s) (fst w) = true))
  \/ (react str_number to_datetime read_file output_dir now s w
      = take_file str_number to_datetime read_file output_dir now (sighting_path s) w
      /\ eligible s = true
      /\ set_mem (sighting_path s) (fst w) = false).
Proof.
  destruct s as [p d probe | p d | dir f isfile probe];
    cbn [react sighting_path eligible].
  - unfold on_created.
    destruct d; cbn [negb andb]; [left; split; [reflexivity | discriminate] |].
    destruct (supported p); cbn [negb andb];
      [| left; split; [reflexivity | discriminate]].
    destruct (set_mem p (fst w)) eqn:Hmem; [left; split; [reflexivity | auto] |].
    destruct probe; [left; split; [reflexivity | discriminate] | |];
      right; auto.
  - unfold on_modified.
    destruct d; cbn [negb andb]; [left; split; [reflexivity | discriminate] |].
    destruct (supported p); cbn [negb andb];
      [| left; split; [reflexivity | discriminate]].
    destruct (set_mem p (fst w)) eqn:Hmem; [left; split; [reflexivity | auto] |].
    right. auto.
  - unfold poll_entry.
    destruct isfile; cbn [negb andb]; [| left; split; [reflexivity | discriminate]].
    destruct (existsb _ SUPPORTED_EXTENSIONS); cbn [negb andb];
      [| left; split; [reflexivity | discriminate]].
    destruct (set_mem (OsPath.join dir f) (fst w)) eqn:Hmem;
      [left; split; [reflexivity | auto] |].
    destruct probe; [left; split; [reflexivity | discriminate]
                    | left; split; [reflexivity | discriminate] |].
    right. auto.
Qed.

(** A path handed to [process_file] was not in the processed set at the
    start of the run. *)
Lemma watch_calls_new str_number to_datetime read_file output_dir :
  forall sightings w w' calls,
    watch str_number to_datetime read_file output_dir sightings w = (w', calls) ->
    forall p, In p calls -> set_mem p (fst w) = false.
Proof.
  induction sightings as [| [now s] rest IH]; intros w w' calls Hrun p Hp.
  - cbn [watch] in Hrun. injection Hrun as <- <-. destruct Hp.
  - cbn [watch] in Hrun.
    destruct (react str_number to_datetime read_file output_dir now s w)
      as [w1 calls1] eqn:Hreact.
    destruct (watch str_number to_datetime read_file output_dir rest w1)
      as [w2 calls2] eqn:Hrest.
    injection Hrun as <- <-.
    destruct (react_cases str_number to_datetime read_file output_dir now s w)
      as [[Hsame _] | (Htake & _ & Hnew)].
    + rewrite Hsame in Hreact. injection Hreact as <- <-.
      exact (IH _ _ _ Hrest p Hp).
    + rewrite Htake in Hreact. unfold take_file in Hreact.
      injection Hreact as <- <-. cbn [app In] in Hp.
      destruct Hp as [<- | Hp]; [exact Hnew |].
      pose proof (IH _ _ _ Hrest p Hp) as Hm. cbn [fst] in Hm.
      rewrite set_mem_add in Hm. apply orb_false_iff in Hm. tauto.
Qed.

(** X18.  Over any run of the watcher (watchdog events or polled
    directory entries), no path is handed to [process_file] twice; every
    path handed over comes from an eligible sighting (a file, not a
    directory, with a supported extension and a readable size) and was not
    in the processed set before; the processed set grows by exactly those
    paths; and in the end the file of every eligible sighting is in the
    processed set. *)
Theorem watcher_processes_each_file_once
    (str_number : Q -> string) (to_datetime : cell -> option (option Timestamp))
    (read_file : string -> file_data) (output_dir : string)
    (sightings : list (Timestamp * sighting)) (w w' : watcher)
    (calls : list string) :
  watch str_number to_datetime read_file output_dir sightings w = (w', calls) ->
  NoDup calls
  /\ (forall p, In p calls ->
        set_mem p (fst w) = false
        /\ exists now s, In (now, s) sightings /\ sighting_path s = p
                         /\ eligible s = true)
  /\ (forall p, set_mem p (fst w') = true
                <-> set_mem p (fst w) = true \/ In p calls)
  /\ (forall now s, In (now, s) sightings -> eligible s = true ->
        set_mem (sighting_path s) (fst w') = true).
Proof.
  revert w w' calls.
  induction sightings as [| [now s] rest IH]; intros w w' calls Hrun.
  - cbn [watch] in Hrun. injection Hrun as <- <-.
    split; [constructor |]. split; [intros p [] |].
    split; [intros p; cbn [In]; tauto | intros now s []].
  - cbn [watch] in Hrun.
    destruct (react str_number to_datetime read_file output_dir now s w)
      as [w1 calls1] eqn:Hreact.
    destruct (watch str_number to_datetime read_file output_dir rest w1)
      as [w2 calls2] eqn:Hrest.
    injection Hrun as <- <-.
    destruct (IH w1 w2 calls2 Hrest) as (Hnodup & Hfresh & Hset & Hdone).
    destruct (react_cases str_number to_datetime read_file output_dir now s w)
      as [[Hsame Hknown] | (Htake & Helig & Hnew)].
    + (* nothing happens at this sighting *)
      rewrite Hsame in Hreact. injection Hreact as <- <-. cbn [app].
      split; [exact Hnodup |]. split; [| split].
      * intros p Hp. destruct (Hfresh p Hp) as [Hm (n & s' & Hin & Hpath & He)].
        split; [exact Hm |]. exists n, s'. split; [right; exact Hin | auto].
      * exact Hset.
      * intros n s' [Heq | Hin] He.
        -- injection Heq as <- <-. apply Hset. left. apply Hknown. exact He.
        -- apply (Hdone n s' Hin He).
    + (* the file is taken *)
      rewrite Htake in Hreact. unfold take_file in Hreact.
      injection Hreact as <- <-. cbn [fst app] in *.
      set (p0 := sighting_path s) in *.
      assert (Hmem1 : forall p,
                 set_mem p (set_add p0 (fst w)) = String.eqb p p0 || set_mem p (fst w))
        by (intros p; apply set_mem_add).
      split; [| split; [| split]].
      * constructor; [| exact Hnodup].
        intros Hin. destruct (Hfresh p0 Hin) as [Hm _].
        rewrite Hmem1, String.eqb_refl in Hm. discriminate.
      * intros p [<- | Hp].
        -- split; [exact Hnew |]. exists now, s. split; [left; reflexivity | auto].
        -- destruct (Hfresh p Hp) as [Hm (n & s' & Hin & Hpath & He)].
           rewrite Hmem1 in Hm. apply orb_false_iff in Hm.
           split; [tauto |]. exists n, s'. split; [right; exact Hin | auto].
      * intros p. rewrite Hset, Hmem1, orb_true_iff, String.eqb_eq.
        cbn [In]. split.
        -- intros [[Heq | Hm] | Hin]; auto.
        -- intros [Hm | [Heq | Hin]]; auto.
      * intros n s' [Heq | Hin] He.
        -- injection Heq as <- <-. apply Hset. left.
           rewrite Hmem1. fold p0. rewrite String.eqb_refl. reflexivity.
        -- apply (Hdone n s' Hin He).
Qed.

Lemma mark_existing_grows (watch_dir : string) (listing : list (string * bool)) :
  forall processed p,
    set_mem p processed = true ->
    set_mem p (mark_existing watch_dir listing processed) = true.
Proof.
  induction listing as [| [f isfile] rest IH]; intros processed p Hp.
  - exact Hp.
  - cbn [mark_existing].
    destruct (isfile && existsb _ SUPPORTED_EXTENSIONS).
    + apply IH. rewrite set_mem_add, Hp. apply orb_true_r.
    + apply IH. exact Hp.
Qed.

Lemma mark_existing_marks (watch_dir : string) (listing : list (string * bool))
    (f : string) :
  forall processed,
    In (f, true) listing ->
    existsb (String.eqb (PyStr.lower (snd (OsPath.splitext f)))) SUPPORTED_EXTENSIONS
    = true ->
    set_mem (OsPath.join watch_dir f) (mark_existing watch_dir listing processed)
    = true.
Proof.
  induction listing as [| [g isfile] rest IH]; intros processed Hin Hext.
  - destruct Hin.
  - cbn [mark_existing]. destruct Hin as [Heq | Hin].
    + injection Heq as -> ->. rewrite Hext. cbn [andb].
      apply mark_existing_grows. rewrite set_mem_add, String.eqb_refl. reflexivity.
    + destruct (isfile && existsb _ SUPPORTED_EXTENSIONS); apply IH; assumption.
Qed.

(** X19.  A file with a supported extension that is in the watched
    directory when the watcher starts is marked as processed and is never
    handed to [process_file], whatever is sighted afterwards. *)
Theorem files_present_at_start_are_never_processed
    (str_number : Q -> string) (to_datetime : cell -> option (option Timestamp))
    (read_file : string -> file_data) (output_dir watch_dir : string)
    (listing : list (string * bool)) (fs : files)
    (sightings : list (Timestamp * sighting)) (w' : watcher) (calls : list string)
    (f : string) :
  watch str_number to_datetime read_file output_dir sightings
        (mark_existing watch_dir listing [], fs) = (w', calls) ->
  In (f, true) listing ->
  existsb (String.eqb (PyStr.lower (snd (OsPath.splitext f)))) SUPPORTED_EXTENSIONS
  = true ->
  ~ In (OsPath.join watch_dir f) calls
  /\ set_mem (OsPath.join watch_dir f) (fst w') = true.
Proof.
  intros Hrun Hin Hext.
  pose proof (mark_existing_marks watch_dir listing f [] Hin Hext) as Hmarked.
  split.
  - intros Hcall.
    pose proof (watch_calls_new _ _ _ _ _ _ _ _ Hrun _ Hcall) as Hnew.
    cbn [fst] in Hnew. congruence.
  - revert Hrun Hmarked. generalize (mark_existing watch_dir listing []).
    intros processed. revert processed fs w' calls.
    induction sightings as [| [now s] rest IH]; intros processed fs w' calls Hrun Hm.
    + cbn [watch] in Hrun. injection Hrun as <- <-. exact Hm.
    + cbn [watch] in Hrun.
      destruct (react str_number to_datetime read_file output_dir now s (processed, fs))
        as [w1 calls1] eqn:Hreact.
      destruct (watch str_number to_datetime read_file output_dir rest w1)
        as [w2 calls2] eqn:Hrest.
      injection Hrun as <- <-.
      destruct w1 as [processed1 fs1].
      apply (IH processed1 fs1 w2 calls2 Hrest).
      destruct (react_cases str_number to_datetime read_file output_dir now s
                  (processed, fs)) as [[Hsame _] | (Htake & _ & _)].
      * rewrite Hsame in Hreact. injection Hreact as <- <-. exact Hm.
      * rewrite Htake in Hreact. unfold take_file in Hreact.
        injection Hreact as <- <-. cbn [fst].
        rewrite set_mem_add, Hm. apply orb_true_r.
Qed.

(** A run: a new export is created and then modified, a text file appears,
    and an export that was there at the start is modified. *)
Definition watch_example : list (Timestamp * sighting) :=
  [(clock 9 5 0, Created "in/run2.csv" false Stable);
   (clock 9 5 1, Modified "in/run2.csv" false);
   (clock 9 6 0, Created "in/notes.txt" false Stable);
   (clock 9 7 0, Modified "in/run1.csv" false)]%string.

Definition watch_example_start : watcher :=
  (mark_existing "in" [("run1.csv", true); ("old", false)]%string [], []).

Definition watch_example_run : watcher * list string :=
  watch str_number_int to_datetime_cells (fun _ => Delimited two_of_three_df)
        "out" watch_example watch_example_start.

(** X18 at [watch_example]: one call, for the new export. *)
Lemma watcher_processes_each_file_once_witness :
  NoDup (snd watch_example_run)
  /\ snd watch_example_run = ["in/run2.csv"]%string.
Proof.
  destruct (watcher_processes_each_file_once
              str_number_int to_datetime_cells (fun _ => Delimited two_of_three_df)
              "out" watch_example watch_example_start
              (fst watch_example_run) (snd watch_example_run)
              (surjective_pairing _)) as [Hnodup _].
  split; [exact Hnodup | vm_compute; reflexivity].
Defined.

(** X19 at [watch_example]: the export present at the start is left alone. *)
Lemma files_present_at_start_are_never_processed_witness :
  ~ In (OsPath.join "in" "run1.csv") (snd watch_example_run).
Proof.
  apply (files_present_at_start_are_never_processed
           str_number_int to_datetime_cells (fun _ => Delimited two_of_three_df)
           "out" "in" [("run1.csv", true); ("old", false)]%string []
           watch_example (fst watch_example_run) (snd watch_example_run)
           "run1.csv" (surjective_pairing _)).
  - left. reflexivity.
  - reflexivity.
Defined.


(** ** The watcher and the loader agree on the formats *)

Lemma split_at_last_app_clean (c : ascii) (a b : string) :
  OsPath.has_char c b = false ->
  OsPath.split_at_last c (a ++ b)%string
  = match OsPath.split_at_last c a with
    | Some (before, rest) => Some (before, (rest ++ b)%string)
    | None => None
    end.
Proof.
  intros Hb. induction a as [| x a IH]; cbn [String.append].
  - cbn [OsPath.split_at_last]. apply split_at_last_none. exact Hb.
  - cbn [OsPath.split_at_last]. rewrite IH.
    destruct (OsPath.split_at_last c a) as [[before rest] |]; [reflexivity |].
    destruct (Ascii.eqb x c); reflexivity.
Qed.

(** Under a directory, a name without slash keeps its extension. *)
Lemma splitext_under (pre f : string) :
  pre = ""%string \/ (exists dir, pre = (dir ++ "/")%string) ->
  OsPath.has_char "/" f = false ->
  snd (OsPath.splitext (pre ++ f)%string) = snd (OsPath.splitext f).
Proof.
  intros Hpre Hf. pose proof Hpre as Hpre'.
  destruct Hpre as [-> | [dir ->]]; [reflexivity |].
  unfold OsPath.splitext.
  destruct (OsPath.split_at_last "." f) as [[rf ef] |] eqn:Hsf.
  - pose proof (split_at_last_some _ _ _ _ Hsf) as [Heq [tail [-> Htail]]].
    assert (Hrf : OsPath.has_char "/" rf = false).
    { rewrite Heq, has_char_app in Hf. apply orb_false_iff in Hf. tauto. }
    rewrite Heq, <- string_app_assoc.
    rewrite (split_at_last_app "." ((dir ++ "/") ++ rf)%string tail Htail).
    rewrite (basename_under (dir ++ "/")%string rf Hpre' Hrf).
    rewrite (basename_plain rf Hrf).
    destruct (OsPath.has_char "/" (String "." tail)); [reflexivity |].
    destruct (OsPath.all_dots rf); reflexivity.
  - apply split_at_last_none in Hsf.
    rewrite string_app_assoc. cbn [String.append].
    assert (Hclean : OsPath.has_char "." (String "/" f) = false).
    { cbn [OsPath.has_char]. rewrite Hsf. reflexivity. }
    rewrite (split_at_last_app_clean "." dir (String "/" f) Hclean).
    destruct (OsPath.split_at_last "." dir) as [[before rest] |]; [| reflexivity].
    assert (Hslash : OsPath.has_char "/" (rest ++ String "/" f)%string = true).
    { rewrite has_char_app. cbn [OsPath.has_char].
      rewrite Ascii.eqb_refl. apply orb_true_r. }
    rewrite Hslash. reflexivity.
Qed.

Lemma ends_with_slash_shape (a : string) :
  OsPath.ends_with_slash a = true -> exists dir, a = (dir ++ "/")%string.
Proof.
  unfold OsPath.ends_with_slash.
  destruct (OsPath.split_at_last "/" a) as [[before rest] |] eqn:Hs; [| discriminate].
  apply split_at_last_some in Hs. destruct Hs as [Heq [tail [Hrest _]]].
  destruct rest as [| x [| y rest]]; try discriminate.
  intros _. injection Hrest as -> _. exists before. exact Heq.
Qed.

Lemma join_shape (a f : string) :
  OsPath.has_char "/" f = false ->
  exists pre,
    OsPath.join a f = (pre ++ f)%string
    /\ (pre = ""%string \/ exists dir, pre = (dir ++ "/")%string).
Proof.
  intros Hf. unfold OsPath.join.
  assert (Hprefix : prefix "/" f = false).
  { destruct f as [| x f]; [reflexivity |].
    cbn [OsPath.has_char] in Hf. apply orb_false_iff in Hf. destruct Hf as [Hx _].
    cbn [prefix]. destruct (ascii_dec "/" x) as [Heq | Hneq]; [| reflexivity].
    subst x. discriminate. }
  rewrite Hprefix.
  destruct (String.eqb a "") eqn:Hempty; cbn [orb].
  - apply String.eqb_eq in Hempty. subst a. exists ""%string. auto.
  - destruct (OsPath.ends_with_slash a) eqn:Hend.
    + exists a. split; [reflexivity |]. right. apply ends_with_slash_shape. exact Hend.
    + exists (a ++ "/")%string. split.
      * rewrite string_app_assoc. reflexivity.
      * right. exists a. reflexivity.
Qed.

(** For a polled entry, the extension of the joined path is that of the
    entry's name. *)
Lemma supported_joined (watch_dir f : string) :
  OsPath.has_char "/" f = false ->
  supported (OsPath.join watch_dir f)
  = existsb (String.eqb (PyStr.lower (snd (OsPath.splitext f)))) SUPPORTED_EXTENSIONS.
Proof.
  intros Hf. unfold supported.
  destruct (join_shape watch_dir f Hf) as [pre [-> Hpre]].
  rewrite (splitext_under pre f Hpre Hf). reflexivity.
Qed.

Lemma load_data_supported (ext : string) (file : file_data) (e : string) :
  existsb (String.eqb (PyStr.lower ext)) SUPPORTED_EXTENSIONS = true ->
  load_data ext file <> Raise (UnsupportedFormat e).
Proof.
  unfold SUPPORTED_EXTENSIONS. cbn [existsb]. rewrite orb_false_r.
  intros Hsup. unfold load_data.
  destruct (String.eqb (PyStr.lower ext) ".xlsx" || String.eqb (PyStr.lower ext) ".xls")
    eqn:Hbook.
  - destruct file as [all_sheets | df]; [| discriminate].
    destruct (select_trades_sheet (map fst all_sheets) None) as [name |].
    + unfold read_sheet. destruct (find _ all_sheets); discriminate.
    + destruct (map snd all_sheets); discriminate.
  - rewrite orb_assoc, Hbook in Hsup. cbn [orb] in Hsup. rewrite Hsup.
    destruct file; discriminate.
Qed.

Lemma eligible_supported (s : sighting) :
  (forall watch_dir f isfile probe,
      s = Polled watch_dir f isfile probe -> OsPath.has_char "/" f = false) ->
  eligible s = true -> supported (sighting_path s) = true.
Proof.
  intros Hnames. destruct s as [p d probe | p d | dir f isfile probe];
    cbn [eligible sighting_path]; intros H.
  - apply andb_true_iff in H. destruct H as [H _].
    apply andb_true_iff in H. tauto.
  - apply andb_true_iff in H. tauto.
  - rewrite (supported_joined dir f (Hnames dir f isfile probe eq_refl)).
    apply andb_true_iff in H. destruct H as [H _].
    apply andb_true_iff in H. tauto.
Qed.

(** A path handed to [process_file] comes from an eligible sighting. *)
Lemma watch_calls_eligible str_number to_datetime read_file output_dir :
  forall sightings w w' calls,
    watch str_number to_datetime read_file output_dir sightings w = (w', calls) ->
    forall p, In p calls ->
      exists now s, In (now, s) sightings /\ sighting_path s = p /\ eligible s = true.
Proof.
  induction sightings as [| [now s] rest IH]; intros w w' calls Hrun p Hp.
  - cbn [watch] in Hrun. injection Hrun as <- <-. destruct Hp.
  - cbn [watch] in Hrun.
    destruct (react str_number to_datetime read_file output_dir now s w)
      as [w1 calls1] eqn:Hreact.
    destruct (watch str_number to_datetime read_file output_dir rest w1)
      as [w2 calls2] eqn:Hrest.
    injection Hrun as <- <-.
    assert (Hlater : In p calls2 ->
              exists now0 s0, In (now0, s0) ((now, s) :: rest)
                              /\ sighting_path s0 = p /\ eligible s0 = true).
    { intros Hp2. destruct (IH _ _ _ Hrest p Hp2) as (n & s0 & Hin & H).
      exists n, s0. split; [right; exact Hin | exact H]. }
    destruct (react_cases str_number to_datetime read_file output_dir now s w)
      as [[Hsame _] | (Htake & Helig & _)].
    + rewrite Hsame in Hreact. injection Hreact as <- <-. apply Hlater. exact Hp.
    + rewrite Htake in Hreact. unfold take_file in Hreact.
      injection Hreact as <- <-. cbn [app In] in Hp.
      destruct Hp as [<- | Hp]; [| apply Hlater; exact Hp].
      exists now, s. split; [left; reflexivity | auto].
Qed.

(** X20.  The watcher and the loader agree on the formats: every path
    that a run of the watcher hands to [process_file] has an extension in
    the supported set, so [load_data] never rejects its format.  (The names
    met by a polling scan are directory entries, without slash.) *)
Theorem watcher_hands_over_supported_files_only
    (str_number : Q -> string) (to_datetime : cell -> option (option Timestamp))
    (read_file : string -> file_data) (output_dir : string)
    (sightings : list (Timestamp * sighting)) (w w' : watcher)
    (calls : list string) :
  watch str_number to_datetime read_file output_dir sightings w = (w', calls) ->
  (forall now watch_dir f isfile probe,
      In (now, Polled watch_dir f isfile probe) sightings ->
      OsPath.has_char "/" f = false) ->
  forall p, In p calls ->
    supported p = true
    /\ forall e, load_data_at read_file p <> Raise (UnsupportedFormat e).
Proof.
  intros Hrun Hnames p Hp.
  destruct (watch_calls_eligible _ _ _ _ _ _ _ _ Hrun p Hp)
    as (now & s & Hin & Hpath & Helig).
  assert (Hsup : supported p = true).
  { rewrite <- Hpath. apply eligible_supported; [| exact Helig].
    intros dir f isfile probe ->. exact (Hnames now dir f isfile probe Hin). }
  split; [exact Hsup |].
  intros e. unfold load_data_at. apply load_data_supported. exact Hsup.
Qed.

(** X20 at [watch_example]. *)
Lemma watcher_hands_over_supported_files_only_witness :
  supported "in/run2.csv" = true
  /\ forall e,
       load_data_at (fun _ => Delimited two_of_three_df) "in/run2.csv"
       <> Raise (UnsupportedFormat e).
Proof.
  apply (watcher_hands_over_supported_files_only
           str_number_int to_datetime_cells (fun _ => Delimited two_of_three_df)
           "out" watch_example watch_example_start
           (fst watch_example_run) (snd watch_example_run)
           (surjective_pairing _)).
  - intros now watch_dir f isfile probe Hin. cbn [watch_example In] in Hin.
    destruct Hin as [H | [H | [H | [H | []]]]]; discriminate.
  - vm_compute. left. reflexivity.
Defined.
